(** * Wakapi subscription routes (routes/subscription.go)

    A shallow embedding of the subscription handlers of package [routes]:
    [PostCheckout], [PostPortal], [PostWebhook], [GetCheckoutSuccess],
    [GetCheckoutCancel] and their two helpers.

    The handlers are HTTP controllers: they read a request, talk to the
    billing provider through its SDK, write log lines and answer with a
    status or a redirect.  They are embedded as computations in a small
    monad: a computation returns or panics (a nil pointer is dereferenced),
    and it threads the world a handler can act on:

    - the chronological [trace] of everything the handler asked of its
      collaborators (log lines, SDK computations, provider API calls);
    - the [http.ResponseWriter];
    - the locally persisted users (what [userSrvc] gives access to).

    What the SDK and the provider answer is not decided by this file: it
    is a parameter ([Backend]) of every handler. *)

From Stdlib Require Import String Ascii List ZArith Bool.
Import ListNotations.
Local Open Scope string_scope.
Local Open Scope Z_scope.

(** ** Go basics *)

(** A Go [error] value, identified with its message. *)
Definition error := string.

(** [(T, error)] results: exactly one of the two is meaningful. *)
Inductive result (A : Type) : Type :=
| Ok (a : A)
| Err (e : error).
Arguments Ok {A} a.
Arguments Err {A} e.

Definition bytes := list Byte.byte.

(** The double quote character, as a one-character string. *)
Definition dquote : string := String "034"%char EmptyString.

Module fmt.

(** [fmt.Sprintf] for the verb the handlers format URLs and queries with:
    [%s] applied to a string operand.  A [%s] without operand prints Go's
    [%!s(MISSING)]; other verbs are not interpreted. *)
Fixpoint Sprintf (format : string) (a : list string) : string :=
  match format with
  | EmptyString => EmptyString
  | String c rest =>
      if Ascii.eqb c "%" then
        match rest with
        | String v rest' =>
            if Ascii.eqb v "s" then
              match a with
              | x :: a' => (x ++ Sprintf rest' a')%string
              | [] => ("%!s(MISSING)" ++ Sprintf rest' [])%string
              end
            else String c (String v (Sprintf rest' a))
        | EmptyString => String c EmptyString
        end
      else String c (Sprintf rest a)
  end.

End fmt.

(** ** net/http and io/ioutil *)

Module http.

Definition StatusOK : Z := 200.
Definition StatusFound : Z := 302.
Definition StatusSeeOther : Z := 303.
Definition StatusBadRequest : Z := 400.
Definition StatusServiceUnavailable : Z := 503.

(** A request body as an [io.Reader]: the bytes it delivers, followed by
    end of file ([None]) or by a read error. *)
Record Body : Type := mkBody {
  data : bytes;
  failure : option error
}.

(** [http.MaxBytesReader(w, r, n)]: a reader that delivers at most [n]
    bytes of [r] and fails once [r] turns out to hold more. *)
Definition MaxBytesReader (r : Body) (n : Z) : Body :=
  if n <? Z.of_nat (length (data r))
  then {| data := firstn (Z.to_nat n) (data r);
          failure := Some "http: request body too large"%string |}
  else r.

(** The [http.ResponseWriter] as the handlers use it: the status written
    by the first [WriteHeader], and the target handed to [http.Redirect]. *)
Record ResponseWriter : Type := mkResponse {
  Status : option Z;
  Location : option string
}.

Definition fresh : ResponseWriter := {| Status := None; Location := None |}.

(** Only the first [WriteHeader] of a response takes effect. *)
Definition WriteHeader (w : ResponseWriter) (code : Z) : ResponseWriter :=
  match Status w with
  | Some _ => w
  | None => {| Status := Some code; Location := Location w |}
  end.

(** [http.Redirect(w, r, url, code)]: sets the [Location] header and
    writes the status. *)
Definition Redirect (w : ResponseWriter) (url : string) (code : Z) : ResponseWriter :=
  match Status w with
  | Some _ => w
  | None => {| Status := Some code; Location := Some url |}
  end.

End http.

Module ioutil.

(** [ioutil.ReadAll]: everything up to end of file, or the reader's error. *)
Definition ReadAll (r : http.Body) : result bytes :=
  match http.failure r with
  | None => Ok (http.data r)
  | Some e => Err e
  end.

End ioutil.

(** ** Application types *)

Module models.

(** The authenticated user ([models.User]); the handlers read its e-mail. *)
Record User : Type := mkUser {
  ID : string;
  Email : string
}.

End models.

Module conf.

Record ServerConfig : Type := mkServer {
  BasePath : string;
  PublicUrl : string
}.

Record SubscriptionsConfig : Type := mkSubscriptions {
  Enabled : bool;
  StripeSecretKey : string;
  StripeEndpointSecret : string;
  StandardPriceId : string;
  StandardPrice : string
}.

(** [IsDev] is the answer of [Config.IsDev()], which package [config]
    computes from the configured environment. *)
Record Config : Type := mkConfig {
  IsDev : bool;
  Server : ServerConfig;
  Subscriptions : SubscriptionsConfig
}.

End conf.

(** An incoming request: the headers (canonical names), the body, the
    principal the authentication middleware stored in the request context
    ([middlewares.GetPrincipal]), and the outcome of [r.ParseForm()]. *)
Record Request : Type := mkRequest {
  Header : list (string * string);
  Body : http.Body;
  Principal : models.User;
  FormError : option error
}.

(** [r.Header.Get(key)]: the first value of the header, or the empty string. *)
Fixpoint Header_Get (hs : list (string * string)) (key : string) : string :=
  match hs with
  | [] => EmptyString
  | (k, v) :: hs' => if String.eqb k key then v else Header_Get hs' key
  end.

Definition ParseForm (r : Request) : option error := FormError r.

(** ** The billing provider's SDK (stripe-go) *)

Module stripe.

Module Customer.
Record t : Type := mk { ID : string; Email : string }.
End Customer.

(** A subscription refers to its customer through a pointer
    ([subscription.Customer]); it is nil when the object that was parsed
    names no customer. *)
Module Subscription.
Record t : Type := mk { ID : string; Customer : option Customer.t }.
End Subscription.

Module EventData.
Record t : Type := mk { Raw : bytes }.
End EventData.

(** An event refers to its data through a pointer ([event.Data]); it is
    nil when the event that was verified has no data. *)
Module Event.
Record t : Type := mk { Type_ : string; Data : option EventData.t }.
End Event.

Module CheckoutSessionLineItemParams.
Record t : Type := mk { Price : string; Quantity : Z }.
End CheckoutSessionLineItemParams.

Module CheckoutSessionParams.
Record t : Type := mk {
  Mode : string;
  LineItems : list CheckoutSessionLineItemParams.t;
  CustomerEmail : string;
  ClientReferenceID : string;
  SuccessURL : string;
  CancelURL : string
}.
End CheckoutSessionParams.

Module CheckoutSession.
Record t : Type := mk { URL : string }.
End CheckoutSession.

Module BillingPortalSessionParams.
Record t : Type := mk { Customer : string; ReturnURL : string }.
End BillingPortalSessionParams.

Module BillingPortalSession.
Record t : Type := mk { URL : string }.
End BillingPortalSession.

Module CustomerSearchParams.
Record t : Type := mk { Query : string }.
End CustomerSearchParams.

(** A search iterator after [Search]: the error of the request, if any,
    and the customers it yields in order. *)
Module CustomerSearchIter.
Record t : Type := mk { Err_ : option error; items : list Customer.t }.
End CustomerSearchIter.

Module ConstructEventOptions.
Record t : Type := mk { IgnoreAPIVersionMismatch : bool }.
End ConstructEventOptions.

Definition CheckoutSessionModeSubscription : string := "subscription".

End stripe.

(** What the SDK computes and what the provider answers. *)
Record Backend : Type := mkBackend {
  webhook_ConstructEventWithOptions :
    bytes -> string -> string -> stripe.ConstructEventOptions.t -> result stripe.Event.t;
  json_Unmarshal : bytes -> result stripe.Subscription.t;
  stripeCustomer_Get : string -> result stripe.Customer.t;
  stripeCustomer_Search : stripe.CustomerSearchParams.t -> stripe.CustomerSearchIter.t;
  stripeCheckoutSession_New : stripe.CheckoutSessionParams.t -> result stripe.CheckoutSession.t;
  stripePortalSession_New : stripe.BillingPortalSessionParams.t -> result stripe.BillingPortalSession.t
}.

(** ** Effects *)

Inductive Logger : Type :=
| RequestLog   (* conf.Log().Request(r) *)
| Logbuch.     (* logbuch *)

Inductive Level : Type := Info | Warn | Error.

(** One entry per thing a handler asks of a collaborator. *)
Inductive Effect : Type :=
| ELog (l : Logger) (lvl : Level) (format : string) (args : list string)
| ELoadTemplates
| EConstructEvent (payload : bytes) (sigHeader secret : string)
                  (opts : stripe.ConstructEventOptions.t)
| EUnmarshal (raw : bytes)
| ECustomerGet (id : string)
| ECustomerSearch (params : stripe.CustomerSearchParams.t)
| ECheckoutSessionNew (params : stripe.CheckoutSessionParams.t)
| EPortalSessionNew (params : stripe.BillingPortalSessionParams.t).

Definition is_log (e : Effect) : bool :=
  match e with ELog _ _ _ _ => true | _ => false end.

Definition is_verification (e : Effect) : bool :=
  match e with EConstructEvent _ _ _ _ => true | _ => false end.

Definition is_parse (e : Effect) : bool :=
  match e with EUnmarshal _ => true | _ => false end.

Definition is_customer_fetch (e : Effect) : bool :=
  match e with ECustomerGet _ => true | _ => false end.

(** Calls of the SDK functions that reach out to the billing provider's
    API.  How many HTTP requests the SDK makes for one call (it retries and
    it pages) is not recorded. *)
Definition is_provider_call (e : Effect) : bool :=
  match e with
  | ECustomerGet _ | ECustomerSearch _
  | ECheckoutSessionNew _ | EPortalSessionNew _ => true
  | _ => false
  end.

(** The locally persisted users. *)
Definition Store := list models.User.

Record World : Type := mkWorld {
  trace : list Effect;
  w : http.ResponseWriter;
  users : Store
}.

(** How a call ends: it returns, or it panics.  A panic unwinds through
    the callers; net/http recovers it in the goroutine that serves the
    connection and closes the connection, so nothing further is written. *)
Inductive completion (A : Type) : Type :=
| Returned (a : A)
| Panicked (reason : string).
Arguments Returned {A} a.
Arguments Panicked {A} reason.

Definition Handler (A : Type) : Type := World -> completion A * World.

Definition ret {A} (a : A) : Handler A := fun s => (Returned a, s).

Definition bind {A B} (m : Handler A) (k : A -> Handler B) : Handler B :=
  fun s =>
    match m s with
    | (Returned a, s') => k a s'
    | (Panicked reason, s') => (Panicked reason, s')
    end.

Definition panic {A} (reason : string) : Handler A := fun s => (Panicked reason, s).

Definition nilDereference : string :=
  "runtime error: invalid memory address or nil pointer dereference".

(** Reading a field through a pointer: a nil pointer panics. *)
Definition deref {A} (p : option A) : Handler A :=
  match p with
  | Some a => ret a
  | None => panic nilDereference
  end.

Declare Scope handler_scope.
Delimit Scope handler_scope with handler.
Notation "x <- m ;; k" := (bind m (fun x => k))
  (at level 61, m at next level, right associativity) : handler_scope.
Notation "m ;; k" := (bind m (fun _ => k))
  (at level 61, right associativity) : handler_scope.
Local Open Scope handler_scope.

Definition emit (e : Effect) : Handler unit :=
  fun s => (Returned tt,
            {| trace := (trace s ++ [e])%list; w := w s; users := users s |}).

Definition WriteHeader (code : Z) : Handler unit :=
  fun s => (Returned tt,
            {| trace := trace s; w := http.WriteHeader (w s) code; users := users s |}).

Definition Redirect (url : string) (code : Z) : Handler unit :=
  fun s => (Returned tt,
            {| trace := trace s; w := http.Redirect (w s) url code; users := users s |}).

Definition loadTemplates : Handler unit := emit ELoadTemplates.

Module logbuch.
Definition Info (format : string) (args : list string) : Handler unit :=
  emit (ELog Logbuch Info format args).
Definition Warn (format : string) (args : list string) : Handler unit :=
  emit (ELog Logbuch Warn format args).
End logbuch.

(** [conf.Log().Request(r).Error(format, args...)] *)
Definition Log_Request_Error (format : string) (args : list string) : Handler unit :=
  emit (ELog RequestLog Error format args).

(** The world a request meets: nothing asked yet, nothing written yet. *)
Definition init (db : Store) : World :=
  {| trace := []; w := http.fresh; users := db |}.

(** Serving a request: the world the handler leaves behind. *)
Definition serve (handler : Handler unit) (db : Store) : World :=
  snd (handler (init db)).

(** Serving a request: how the handler ends. *)
Definition outcome (handler : Handler unit) (db : Store) : completion unit :=
  fst (handler (init db)).

(** ** The handlers *)

Record SubscriptionHandler : Type := mkHandler {
  config : conf.Config
}.

Definition BasePath (h : SubscriptionHandler) : string :=
  conf.BasePath (conf.Server (config h)).

Definition PublicUrl (h : SubscriptionHandler) : string :=
  conf.PublicUrl (conf.Server (config h)).

Section Handlers.

Variable sdk : Backend.

(** Calls into the SDK leave an entry in the trace and return what the
    backend answers. *)
Definition ConstructEventWithOptions (payload : bytes) (sigHeader secret : string)
    (opts : stripe.ConstructEventOptions.t) : Handler (result stripe.Event.t) :=
  emit (EConstructEvent payload sigHeader secret opts) ;;
  ret (webhook_ConstructEventWithOptions sdk payload sigHeader secret opts).

Definition Unmarshal (raw : bytes) : Handler (result stripe.Subscription.t) :=
  emit (EUnmarshal raw) ;; ret (json_Unmarshal sdk raw).

Definition Customer_Get (id : string) : Handler (result stripe.Customer.t) :=
  emit (ECustomerGet id) ;; ret (stripeCustomer_Get sdk id).

Definition Customer_Search (params : stripe.CustomerSearchParams.t)
    : Handler stripe.CustomerSearchIter.t :=
  emit (ECustomerSearch params) ;; ret (stripeCustomer_Search sdk params).

Definition CheckoutSession_New (params : stripe.CheckoutSessionParams.t)
    : Handler (result stripe.CheckoutSession.t) :=
  emit (ECheckoutSessionNew params) ;; ret (stripeCheckoutSession_New sdk params).

Definition PortalSession_New (params : stripe.BillingPortalSessionParams.t)
    : Handler (result stripe.BillingPortalSession.t) :=
  emit (EPortalSessionNew params) ;; ret (stripePortalSession_New sdk params).

(** The request [PostCheckout] sends to the provider. *)
Definition checkoutParams (h : SubscriptionHandler) (user : models.User)
    : stripe.CheckoutSessionParams.t :=
  {| stripe.CheckoutSessionParams.Mode := stripe.CheckoutSessionModeSubscription;
     stripe.CheckoutSessionParams.LineItems :=
       [ {| stripe.CheckoutSessionLineItemParams.Price :=
              conf.StandardPriceId (conf.Subscriptions (config h));
            stripe.CheckoutSessionLineItemParams.Quantity := 1 |} ];
     stripe.CheckoutSessionParams.CustomerEmail := models.Email user;
     stripe.CheckoutSessionParams.ClientReferenceID := models.Email user;
     stripe.CheckoutSessionParams.SuccessURL :=
       fmt.Sprintf "%s%s/subscription/success" [PublicUrl h; BasePath h];
     stripe.CheckoutSessionParams.CancelURL :=
       fmt.Sprintf "%s%s/subscription/cancel" [PublicUrl h; BasePath h] |}.

Definition PostCheckout (h : SubscriptionHandler) (r : Request) : Handler unit :=
  (if conf.IsDev (config h) then loadTemplates else ret tt) ;;
  let user := Principal r in
  if String.eqb (models.Email user) EmptyString then
    Redirect (fmt.Sprintf "%s/settings?error=%s#subscription"
                [BasePath h; "missing e-mail address"]) http.StatusFound
  else
    match ParseForm r with
    | Some _ =>
        Redirect (fmt.Sprintf "%s/settings?error=%s#subscription"
                    [BasePath h; "missing form values"]) http.StatusFound
    | None =>
        session <- CheckoutSession_New (checkoutParams h user) ;;
        match session with
        | Err err =>
            Log_Request_Error "failed to create stripe checkout session: %v" [err] ;;
            Redirect (fmt.Sprintf "%s/settings?error=%s#subscription"
                        [BasePath h; "something went wrong"]) http.StatusFound
        | Ok session =>
            Redirect (stripe.CheckoutSession.URL session) http.StatusSeeOther
        end
    end.

Definition findStripeCustomerByEmail (h : SubscriptionHandler) (email : string)
    : Handler (result stripe.Customer.t) :=
  let params :=
    {| stripe.CustomerSearchParams.Query :=
         fmt.Sprintf ("email:" ++ dquote ++ "%s" ++ dquote) [email] |} in
  results <- Customer_Search params ;;
  match stripe.CustomerSearchIter.Err_ results with
  | Some err => ret (Err err)
  | None =>
      match stripe.CustomerSearchIter.items results with
      | customer :: _ => ret (Ok customer)
      | [] => ret (Err "no customer found with given criteria")
      end
  end.

(** The request [PostPortal] sends to the provider for a customer. *)
Definition portalParams (h : SubscriptionHandler) (customer : stripe.Customer.t)
    : stripe.BillingPortalSessionParams.t :=
  {| stripe.BillingPortalSessionParams.Customer := stripe.Customer.ID customer;
     stripe.BillingPortalSessionParams.ReturnURL := PublicUrl h |}.

Definition PostPortal (h : SubscriptionHandler) (r : Request) : Handler unit :=
  (if conf.IsDev (config h) then loadTemplates else ret tt) ;;
  let user := Principal r in
  if String.eqb (models.Email user) EmptyString then
    Redirect (fmt.Sprintf "%s/settings?error=%s#subscription"
                [BasePath h; "no subscription found with your e-mail address, please contact us!"])
             http.StatusFound
  else
    found <- findStripeCustomerByEmail h (models.Email user) ;;
    match found with
    | Err _ =>
        Redirect (fmt.Sprintf "%s/settings?error=%s#subscription"
                    [BasePath h; "no subscription found with your e-mail address, please contact us!"])
                 http.StatusFound
    | Ok customer =>
        session <- PortalSession_New (portalParams h customer) ;;
        match session with
        | Err err =>
            Log_Request_Error "failed to create stripe portal session: %v" [err] ;;
            Redirect (fmt.Sprintf "%s/settings?error=%s#subscription"
                        [BasePath h; "something went wrong"]) http.StatusFound
        | Ok session =>
            Redirect (stripe.BillingPortalSession.URL session) http.StatusSeeOther
        end
    end.

(** On failure the status is written here and the caller only returns.
    [event.Data.Raw] and [subscription.Customer.ID] are read through
    pointers that are not checked. *)
Definition handleParseSubscription (h : SubscriptionHandler) (r : Request)
    (event : stripe.Event.t)
    : Handler (result (stripe.Subscription.t * stripe.Customer.t)) :=
  data <- deref (stripe.Event.Data event) ;;
  parsed <- Unmarshal (stripe.EventData.Raw data) ;;
  match parsed with
  | Err err =>
      Log_Request_Error "failed to parse stripe webhook payload: %v" [err] ;;
      WriteHeader http.StatusBadRequest ;;
      ret (Err err)
  | Ok subscription =>
      reference <- deref (stripe.Subscription.Customer subscription) ;;
      let id := stripe.Customer.ID reference in
      fetched <- Customer_Get id ;;
      match fetched with
      | Err err =>
          Log_Request_Error "failed to fetch stripe customer (%s): %v" [id; err] ;;
          WriteHeader http.StatusBadRequest ;;
          ret (Err err)
      | Ok customer =>
          logbuch.Info "associated stripe customer %s with user %s"
            [stripe.Customer.ID customer; stripe.Customer.Email customer] ;;
          ret (Ok (subscription, customer))
      end
  end.

(** The [case] list of the event switch in [PostWebhook]. *)
Definition isSubscriptionEvent (eventType : string) : bool :=
  String.eqb eventType "customer.subscription.deleted"
  || String.eqb eventType "customer.subscription.updated"
  || String.eqb eventType "customer.subscription.created".

(** The switch yields [false] where the source returns from inside it, and
    [true] where control reaches the statement after it. *)
Definition PostWebhook (h : SubscriptionHandler) (r : Request) : Handler unit :=
  let bodyReader := http.MaxBytesReader (Body r) 65536 in
  match ioutil.ReadAll bodyReader with
  | Err err =>
      Log_Request_Error "error in stripe webhook request: %v" [err] ;;
      WriteHeader http.StatusServiceUnavailable
  | Ok payload =>
      constructed <-
        ConstructEventWithOptions payload
          (Header_Get (Header r) "Stripe-Signature")
          (conf.StripeEndpointSecret (conf.Subscriptions (config h)))
          {| stripe.ConstructEventOptions.IgnoreAPIVersionMismatch := true |} ;;
      match constructed with
      | Err err =>
          Log_Request_Error "stripe webhook signature verification failed: %v" [err] ;;
          WriteHeader http.StatusBadRequest
      | Ok event =>
          proceed <-
            (if isSubscriptionEvent (stripe.Event.Type_ event) then
               handled <- handleParseSubscription h r event ;;
               match handled with
               | Err _ => ret false
               | Ok (subscription, customer) =>
                   logbuch.Info
                     "received stripe subscription event of type '%s' for subscription '%d' (customer '%s' with email '%s')."
                     [stripe.Event.Type_ event; stripe.Subscription.ID subscription;
                      stripe.Customer.ID customer; stripe.Customer.Email customer] ;;
                   ret true
               end
             else
               logbuch.Warn "got stripe event '%s' with no handler defined"
                 [stripe.Event.Type_ event] ;;
               ret true) ;;
          if proceed then WriteHeader http.StatusOK else ret tt
      end
  end.

Definition GetCheckoutSuccess (h : SubscriptionHandler) (r : Request) : Handler unit :=
  Redirect (fmt.Sprintf "%s/settings?success=%s#subscription"
              [BasePath h; "you have successfully subscribed to Wakapi!"])
           http.StatusFound.

Definition GetCheckoutCancel (h : SubscriptionHandler) (r : Request) : Handler unit :=
  Redirect (fmt.Sprintf "%s/settings#subscription" [BasePath h]) http.StatusFound.

End Handlers.

(** ** Reading a served response *)

(** The redirect of a response: its status and target. *)
Definition redirected (s : World) (code : Z) (url : string) : Prop :=
  http.Status (w s) = Some code /\ http.Location (w s) = Some url.

(** The settings page with an error message in the query. *)
Definition settingsError (h : SubscriptionHandler) (msg : string) : string :=
  (BasePath h ++ "/settings?error=" ++ msg ++ "#subscription")%string.

(** [s] starts with [pre]. *)
Fixpoint hasPrefix (s pre : string) {struct pre} : bool :=
  match pre with
  | EmptyString => true
  | String c pre' =>
      match s with
      | EmptyString => false
      | String d s' => Ascii.eqb c d && hasPrefix s' pre'
      end
  end.

(** [sub] occurs in [s]. *)
Fixpoint contains (s sub : string) : bool :=
  hasPrefix s sub
  || match s with
     | EmptyString => false
     | String _ s' => contains s' sub
     end.

(** The URL has a query component that carries parameter [name]. *)
Definition hasQueryFlag (url name : string) : bool :=
  contains url ("?" ++ name ++ "=") || contains url ("&" ++ name ++ "=").

(** Log lines written with the format of the association message. *)
Definition isAssociationLine (e : Effect) : bool :=
  match e with
  | ELog _ _ format _ => String.eqb format "associated stripe customer %s with user %s"
  | _ => false
  end.

Definition count (p : Effect -> bool) (t : list Effect) : nat :=
  length (filter p t).

(** No entry of the trace satisfies [p]. *)
Definition never (p : Effect -> bool) (t : list Effect) : Prop :=
  forallb (fun e => negb (p e)) t = true.

(** The query [findStripeCustomerByEmail] searches with. *)
Definition emailQuery (email : string) : stripe.CustomerSearchParams.t :=
  {| stripe.CustomerSearchParams.Query := ("email:" ++ dquote ++ email ++ dquote)%string |}.

Definition is_search (e : Effect) : bool :=
  match e with ECustomerSearch _ => true | _ => false end.

Definition is_portal_session (e : Effect) : bool :=
  match e with EPortalSessionNew _ => true | _ => false end.

(** The options [PostWebhook] verifies with. *)
Definition webhookOptions : stripe.ConstructEventOptions.t :=
  {| stripe.ConstructEventOptions.IgnoreAPIVersionMismatch := true |}.

Definition endpointSecret (h : SubscriptionHandler) : string :=
  conf.StripeEndpointSecret (conf.Subscriptions (config h)).

(** The signature header and the verification step of [PostWebhook]. *)
Definition signatureHeader (r : Request) : string :=
  Header_Get (Header r) "Stripe-Signature".

Definition verification (h : SubscriptionHandler) (r : Request) (payload : bytes) : Effect :=
  EConstructEvent payload (signatureHeader r) (endpointSecret h) webhookOptions.

(** What [PostWebhook] reads from the request. *)
Definition readBody (r : Request) : result bytes :=
  ioutil.ReadAll (http.MaxBytesReader (Body r) 65536).

Definition respond (code : Z) : http.ResponseWriter :=
  {| http.Status := Some code; http.Location := None |}.

(** What a development instance does before serving a page. *)
Definition devReload (h : SubscriptionHandler) : list Effect :=
  if conf.IsDev (config h) then [ELoadTemplates] else [].

(** The message of [PostPortal] when no customer can be used. *)
Definition noSubscriptionFound : string :=
  "no subscription found with your e-mail address, please contact us!".

(** ** Routing (gorilla/mux) *)

(** The handler methods a route can point to. *)
Inductive HandlerFunc : Type :=
| HGetCheckoutSuccess
| HGetCheckoutCancel
| HPostWebhook
| HPostCheckout
| HPostPortal.

(** [middlewares.NewAuthenticateMiddleware(userSrvc).WithRedirectTarget(target)] *)
Inductive Middleware : Type :=
| AuthenticateMiddleware (redirectTarget : string).

Module mux.

Definition MethodGet : string := "GET".
Definition MethodPost : string := "POST".

(** A registered route: the full path it answers, its methods, the
    middlewares in front of its handler. *)
Record Route : Type := mkRoute {
  path : string;
  methods : list string;
  middlewares : list Middleware;
  handler : HandlerFunc
}.

(** A router: the path prefix and the middlewares it was created with, and
    the routes registered through it and its subrouters, in matching order. *)
Record Router : Type := mkRouter {
  prefix : string;
  uses : list Middleware;
  routes : list Route
}.

(** [r.PathPrefix(p).Subrouter()]: routes of the subrouter are matched
    where the subrouter was created. *)
Definition Subrouter (r : Router) (p : string) : Router :=
  {| prefix := (prefix r ++ p)%string; uses := uses r; routes := routes r |}.

(** [r.Use(m)] *)
Definition Use (r : Router) (m : Middleware) : Router :=
  {| prefix := prefix r; uses := (uses r ++ [m])%list; routes := routes r |}.

(** [r.Path(p).Methods(method).HandlerFunc(f)] *)
Definition HandleFunc (r : Router) (p method : string) (f : HandlerFunc) : Router :=
  {| prefix := prefix r; uses := uses r;
     routes := (routes r ++
                [ {| path := (prefix r ++ p)%string; methods := [method];
                     middlewares := uses r; handler := f |} ])%list |}.

(** Back in the router a subrouter was created from: the routes registered
    meanwhile stay. *)
Definition leave (parent sub : Router) : Router :=
  {| prefix := prefix parent; uses := uses parent; routes := routes sub |}.

Definition matches (method p : string) (rt : Route) : bool :=
  String.eqb (path rt) p && existsb (String.eqb method) (methods rt).

(** The route that serves a request, if any: the first that matches. *)
Definition Match (r : Router) (method p : string) : option Route :=
  find (matches method p) (routes r).

End mux.

(** [defaultErrorRedirectTarget] is the answer of the function of that name
    of package [routes]. *)
Definition RegisterRoutes (defaultErrorRedirectTarget : string)
    (h : SubscriptionHandler) (router : mux.Router) : mux.Router :=
  if negb (conf.Enabled (conf.Subscriptions (config h))) then router
  else
    let subRouterPublic := mux.Subrouter router "/subscription" in
    let subRouterPublic :=
      mux.HandleFunc subRouterPublic "/success" mux.MethodGet HGetCheckoutSuccess in
    let subRouterPublic :=
      mux.HandleFunc subRouterPublic "/cancel" mux.MethodGet HGetCheckoutCancel in
    let subRouterPublic :=
      mux.HandleFunc subRouterPublic "/webhook" mux.MethodPost HPostWebhook in
    let subRouterPrivate := mux.Subrouter subRouterPublic EmptyString in
    let subRouterPrivate :=
      mux.Use subRouterPrivate (AuthenticateMiddleware defaultErrorRedirectTarget) in
    let subRouterPrivate :=
      mux.HandleFunc subRouterPrivate "/checkout" mux.MethodPost HPostCheckout in
    let subRouterPrivate :=
      mux.HandleFunc subRouterPrivate "/portal" mux.MethodPost HPostPortal in
    mux.leave router subRouterPrivate.

(** The handler method behind a route. *)
Definition handlerOf (sdk : Backend) (h : SubscriptionHandler) (f : HandlerFunc)
    : Request -> Handler unit :=
  match f with
  | HGetCheckoutSuccess => GetCheckoutSuccess h
  | HGetCheckoutCancel => GetCheckoutCancel h
  | HPostWebhook => PostWebhook sdk h
  | HPostCheckout => PostCheckout sdk h
  | HPostPortal => PostPortal sdk h
  end.

(** ** Sample deployments, requests and backends *)

Definition sampleConfig (basePath : string) : conf.Config :=
  {| conf.IsDev := false;
     conf.Server := {| conf.BasePath := basePath; conf.PublicUrl := "https://x.test" |};
     conf.Subscriptions :=
       {| conf.Enabled := true;
          conf.StripeSecretKey := "sk_test_1";
          conf.StripeEndpointSecret := "whsec_1";
          conf.StandardPriceId := "price_123";
          conf.StandardPrice := "5 EUR" |} |}.

(** A deployment at the root of its host, and one under [/wakapi]. *)
Definition rootHandler : SubscriptionHandler := {| config := sampleConfig EmptyString |}.
Definition prefixedHandler : SubscriptionHandler := {| config := sampleConfig "/wakapi" |}.

Definition alice : models.User := {| models.ID := "alice"; models.Email := "a@b.com" |}.
Definition nomail : models.User := {| models.ID := "bob"; models.Email := EmptyString |}.

Definition sampleRequest (user : models.User) (body : bytes) (form : option error)
    : Request :=
  {| Header := [("Stripe-Signature", "t=1,v1=5257a869")];
     Body := {| http.data := body; http.failure := None |};
     Principal := user;
     FormError := form |}.

(** The two bytes of an empty JSON object. *)
Definition smallBody : bytes := [Byte.x7b; Byte.x7d].

(** One byte more than [PostWebhook] accepts. *)
Definition oversizedBody : bytes := repeat Byte.x00 (Z.to_nat 65537).

Definition cus1 : stripe.Customer.t :=
  {| stripe.Customer.ID := "cus_1"; stripe.Customer.Email := "a@b.com" |}.
Definition cus2 : stripe.Customer.t :=
  {| stripe.Customer.ID := "cus_2"; stripe.Customer.Email := "a@b.com" |}.

Definition sub1 : stripe.Subscription.t :=
  {| stripe.Subscription.ID := "sub_1"; stripe.Subscription.Customer := Some cus1 |}.

Definition sampleEvent (eventType : string) : stripe.Event.t :=
  {| stripe.Event.Type_ := eventType;
     stripe.Event.Data := Some {| stripe.EventData.Raw := smallBody |} |}.

(** An event without data, and a subscription that names no customer. *)
Definition bareEvent (eventType : string) : stripe.Event.t :=
  {| stripe.Event.Type_ := eventType; stripe.Event.Data := None |}.

Definition orphanSub : stripe.Subscription.t :=
  {| stripe.Subscription.ID := "sub_2"; stripe.Subscription.Customer := None |}.

(** A backend that answers the same whatever it is asked. *)
Definition sampleBackend (event : result stripe.Event.t)
    (subscription : result stripe.Subscription.t)
    (customer : result stripe.Customer.t)
    (found : stripe.CustomerSearchIter.t) : Backend :=
  {| webhook_ConstructEventWithOptions := fun _ _ _ _ => event;
     json_Unmarshal := fun _ => subscription;
     stripeCustomer_Get := fun _ => customer;
     stripeCustomer_Search := fun _ => found;
     stripeCheckoutSession_New :=
       fun _ => Ok {| stripe.CheckoutSession.URL := "https://checkout.test/c/1" |};
     stripePortalSession_New :=
       fun _ => Ok {| stripe.BillingPortalSession.URL := "https://billing.test/p/1" |} |}.

Definition noMatch : stripe.CustomerSearchIter.t :=
  {| stripe.CustomerSearchIter.Err_ := None; stripe.CustomerSearchIter.items := [] |}.
Definition twoMatches : stripe.CustomerSearchIter.t :=
  {| stripe.CustomerSearchIter.Err_ := None; stripe.CustomerSearchIter.items := [cus1; cus2] |}.

(** The provider rejects the signature. *)
Definition rejecting : Backend :=
  sampleBackend (Err "webhook had no valid signature") (Ok sub1) (Ok cus1) noMatch.

(** The provider accepts the signature of an event of the given type. *)
Definition accepting (eventType : string) : Backend :=
  sampleBackend (Ok (sampleEvent eventType)) (Ok sub1) (Ok cus1) twoMatches.

(** The provider accepts the signature of a subscription event that has no
    data. *)
Definition dataless : Backend :=
  sampleBackend (Ok (bareEvent "customer.subscription.created")) (Ok sub1) (Ok cus1)
    noMatch.

(** The provider accepts the signature of a subscription event whose
    object names no customer. *)
Definition customerless : Backend :=
  sampleBackend (Ok (sampleEvent "customer.subscription.updated")) (Ok orphanSub)
    (Ok cus1) noMatch.

(** More sample data: a development instance, a body of exactly the size
    [PostWebhook] accepts, a body whose transfer breaks off, a provider
    that refuses to create sessions. *)
Definition devHandler : SubscriptionHandler :=
  {| config := {| conf.IsDev := true;
                  conf.Server := conf.Server (sampleConfig "/wakapi");
                  conf.Subscriptions := conf.Subscriptions (sampleConfig "/wakapi") |} |}.

Definition fullBody : bytes := repeat Byte.x00 (Z.to_nat 65536).

Definition brokenRequest : Request :=
  {| Header := [("Stripe-Signature", "t=1,v1=5257a869")];
     Body := {| http.data := smallBody; http.failure := Some "unexpected EOF" |};
     Principal := alice;
     FormError := None |}.

Definition refusing : Backend :=
  {| webhook_ConstructEventWithOptions :=
       fun _ _ _ _ => Ok (sampleEvent "customer.subscription.created");
     json_Unmarshal := fun _ => Ok sub1;
     stripeCustomer_Get := fun _ => Ok cus1;
     stripeCustomer_Search := fun _ => twoMatches;
     stripeCheckoutSession_New := fun _ => Err "card_declined";
     stripePortalSession_New := fun _ => Err "api_connection_error" |}.

(** A router mounted under the base path of the deployment. *)
Definition mounted (h : SubscriptionHandler) : mux.Router :=
  {| mux.prefix := BasePath h; mux.uses := []; mux.routes := [] |}.

(** A state in which a handler has already logged and answered. *)
Definition answered : World :=
  {| trace := [ELog Logbuch Info "request received" []];
     w := respond http.StatusOK;
     users := [alice] |}.

(** ** The runs of the handlers *)

(** The ways through [PostWebhook], each with what decides it, how the
    handler ends and the world it leaves. *)
Inductive WebhookRun (sdk : Backend) (h : SubscriptionHandler) (r : Request)
    (db : Store) : completion unit * World -> Prop :=
| WebhookUnread (err : error) :
    readBody r = Err err ->
    WebhookRun sdk h r db
      (Returned tt,
       {| trace := [ELog RequestLog Error "error in stripe webhook request: %v" [err]];
          w := respond http.StatusServiceUnavailable;
          users := db |})
| WebhookRejected (payload : bytes) (err : error) :
    readBody r = Ok payload ->
    webhook_ConstructEventWithOptions sdk payload (signatureHeader r) (endpointSecret h)
      webhookOptions = Err err ->
    WebhookRun sdk h r db
      (Returned tt,
       {| trace := [verification h r payload;
                    ELog RequestLog Error
                      "stripe webhook signature verification failed: %v" [err]];
          w := respond http.StatusBadRequest;
          users := db |})
| WebhookUnhandled (payload : bytes) (event : stripe.Event.t) :
    readBody r = Ok payload ->
    webhook_ConstructEventWithOptions sdk payload (signatureHeader r) (endpointSecret h)
      webhookOptions = Ok event ->
    isSubscriptionEvent (stripe.Event.Type_ event) = false ->
    WebhookRun sdk h r db
      (Returned tt,
       {| trace := [verification h r payload;
                    ELog Logbuch Warn "got stripe event '%s' with no handler defined"
                      [stripe.Event.Type_ event]];
          w := respond http.StatusOK;
          users := db |})
| WebhookNoData (payload : bytes) (event : stripe.Event.t) :
    readBody r = Ok payload ->
    webhook_ConstructEventWithOptions sdk payload (signatureHeader r) (endpointSecret h)
      webhookOptions = Ok event ->
    isSubscriptionEvent (stripe.Event.Type_ event) = true ->
    stripe.Event.Data event = None ->
    WebhookRun sdk h r db
      (Panicked nilDereference,
       {| trace := [verification h r payload];
          w := http.fresh;
          users := db |})
| WebhookParseError (payload : bytes) (event : stripe.Event.t)
    (data : stripe.EventData.t) (err : error) :
    readBody r = Ok payload ->
    webhook_ConstructEventWithOptions sdk payload (signatureHeader r) (endpointSecret h)
      webhookOptions = Ok event ->
    isSubscriptionEvent (stripe.Event.Type_ event) = true ->
    stripe.Event.Data event = Some data ->
    json_Unmarshal sdk (stripe.EventData.Raw data) = Err err ->
    WebhookRun sdk h r db
      (Returned tt,
       {| trace := [verification h r payload;
                    EUnmarshal (stripe.EventData.Raw data);
                    ELog RequestLog Error "failed to parse stripe webhook payload: %v" [err]];
          w := respond http.StatusBadRequest;
          users := db |})
| WebhookNoCustomer (payload : bytes) (event : stripe.Event.t)
    (data : stripe.EventData.t) (subscription : stripe.Subscription.t) :
    readBody r = Ok payload ->
    webhook_ConstructEventWithOptions sdk payload (signatureHeader r) (endpointSecret h)
      webhookOptions = Ok event ->
    isSubscriptionEvent (stripe.Event.Type_ event) = true ->
    stripe.Event.Data event = Some data ->
    json_Unmarshal sdk (stripe.EventData.Raw data) = Ok subscription ->
    stripe.Subscription.Customer subscription = None ->
    WebhookRun sdk h r db
      (Panicked nilDereference,
       {| trace := [verification h r payload;
                    EUnmarshal (stripe.EventData.Raw data)];
          w := http.fresh;
          users := db |})
| WebhookFetchError (payload : bytes) (event : stripe.Event.t)
    (data : stripe.EventData.t) (subscription : stripe.Subscription.t)
    (reference : stripe.Customer.t) (err : error) :
    readBody r = Ok payload ->
    webhook_ConstructEventWithOptions sdk payload (signatureHeader r) (endpointSecret h)
      webhookOptions = Ok event ->
    isSubscriptionEvent (stripe.Event.Type_ event) = true ->
    stripe.Event.Data event = Some data ->
    json_Unmarshal sdk (stripe.EventData.Raw data) = Ok subscription ->
    stripe.Subscription.Customer subscription = Some reference ->
    stripeCustomer_Get sdk (stripe.Customer.ID reference) = Err err ->
    WebhookRun sdk h r db
      (Returned tt,
       {| trace := [verification h r payload;
                    EUnmarshal (stripe.EventData.Raw data);
                    ECustomerGet (stripe.Customer.ID reference);
                    ELog RequestLog Error "failed to fetch stripe customer (%s): %v"
                      [stripe.Customer.ID reference; err]];
          w := respond http.StatusBadRequest;
          users := db |})
| WebhookHandled (payload : bytes) (event : stripe.Event.t)
    (data : stripe.EventData.t) (subscription : stripe.Subscription.t)
    (reference customer : stripe.Customer.t) :
    readBody r = Ok payload ->
    webhook_ConstructEventWithOptions sdk payload (signatureHeader r) (endpointSecret h)
      webhookOptions = Ok event ->
    isSubscriptionEvent (stripe.Event.Type_ event) = true ->
    stripe.Event.Data event = Some data ->
    json_Unmarshal sdk (stripe.EventData.Raw data) = Ok subscription ->
    stripe.Subscription.Customer subscription = Some reference ->
    stripeCustomer_Get sdk (stripe.Customer.ID reference) = Ok customer ->
    WebhookRun sdk h r db
      (Returned tt,
       {| trace := [verification h r payload;
                    EUnmarshal (stripe.EventData.Raw data);
                    ECustomerGet (stripe.Customer.ID reference);
                    ELog Logbuch Info "associated stripe customer %s with user %s"
                      [stripe.Customer.ID customer; stripe.Customer.Email customer];
                    ELog Logbuch Info
                      "received stripe subscription event of type '%s' for subscription '%d' (customer '%s' with email '%s')."
                      [stripe.Event.Type_ event; stripe.Subscription.ID subscription;
                       stripe.Customer.ID customer; stripe.Customer.Email customer]];
          w := respond http.StatusOK;
          users := db |}).

Definition is_reload (e : Effect) : bool :=
  match e with ELoadTemplates => true | _ => false end.

(** A deployment with subscriptions switched off. *)
Definition disabledHandler : SubscriptionHandler :=
  {| config := {| conf.IsDev := false;
                  conf.Server := conf.Server (sampleConfig "/wakapi");
                  conf.Subscriptions :=
                    {| conf.Enabled := false;
                       conf.StripeSecretKey := EmptyString;
                       conf.StripeEndpointSecret := EmptyString;
                       conf.StandardPriceId := EmptyString;
                       conf.StandardPrice := EmptyString |} |} |}.

(** A router that already serves a page. *)
Definition busyRouter : mux.Router :=
  {| mux.prefix := "/wakapi"; mux.uses := [];
     mux.routes := [ {| mux.path := "/wakapi/subscription/success";
                        mux.methods := ["GET"];
                        mux.middlewares := [];
                        mux.handler := HGetCheckoutCancel |} ] |}.

(** Error lines of the request logger. *)
Definition is_error_log (e : Effect) : bool :=
  match e with ELog RequestLog Error _ _ => true | _ => false end.

(** * Properties *)

(** ** The paths through [PostWebhook] *)

(** Every request takes one of the eight ways through [PostWebhook]. *)
Lemma PostWebhook_run (sdk : Backend) (h : SubscriptionHandler) (r : Request)
    (db : Store) :
  WebhookRun sdk h r db (PostWebhook sdk h r (init db)).
Proof.
  unfold PostWebhook. fold (readBody r).
  destruct (readBody r) as [payload | err] eqn:Hread.
  2: { now apply WebhookUnread. }
  unfold ConstructEventWithOptions, bind at 1 2, emit at 1, ret at 1; cbn [init trace w users app].
  fold (signatureHeader r). fold (endpointSecret h). fold webhookOptions.
  fold (verification h r payload).
  destruct (webhook_ConstructEventWithOptions sdk payload (signatureHeader r)
              (endpointSecret h) webhookOptions) as [event | err] eqn:Hsig.
  2: { now apply WebhookRejected. }
  destruct (isSubscriptionEvent (stripe.Event.Type_ event)) eqn:Htype.
  2: { now apply WebhookUnhandled. }
  unfold handleParseSubscription.
  destruct (stripe.Event.Data event) as [data |] eqn:Hdata.
  2: { now apply WebhookNoData with (event := event). }
  unfold deref at 1, Unmarshal, bind at 1 2 3 4 5, ret at 1 2, emit at 1;
    cbn [trace w users app].
  destruct (json_Unmarshal sdk (stripe.EventData.Raw data)) as [sub | err] eqn:Hparse.
  2: { now apply WebhookParseError with (event := event). }
  destruct (stripe.Subscription.Customer sub) as [reference |] eqn:Hcustomer.
  2: { now apply WebhookNoCustomer with (event := event) (subscription := sub). }
  unfold deref, Customer_Get, bind at 1 2 3 4 5, ret at 1 2, emit at 1;
    cbn [trace w users app].
  destruct (stripeCustomer_Get sdk (stripe.Customer.ID reference))
    as [customer | err] eqn:Hget.
  - now apply WebhookHandled with (event := event) (subscription := sub)
                                  (reference := reference).
  - now apply WebhookFetchError with (event := event) (subscription := sub).
Qed.

(** Hypotheses about the same call are brought together. *)
Ltac same_call :=
  repeat match goal with
         | H1 : ?x = ?a, H2 : ?x = ?a |- _ => clear H2
         | H1 : ?x = _, H2 : ?x = _ |- _ =>
             rewrite H1 in H2;
             first [ discriminate H2 | injection H2 as H2; subst ]
         end.

Ltac webhook_path sdk h r db :=
  intros; unfold serve, outcome;
  destruct (PostWebhook_run sdk h r db); same_call;
  try reflexivity; try discriminate.

Section WebhookPaths.

Variable sdk : Backend.
Variable h : SubscriptionHandler.
Variable r : Request.
Variable db : Store.

Lemma PostWebhook_unread (err : error) :
  readBody r = Err err ->
  serve (PostWebhook sdk h r) db =
  {| trace := [ELog RequestLog Error "error in stripe webhook request: %v" [err]];
     w := respond http.StatusServiceUnavailable;
     users := db |}.
Proof. webhook_path sdk h r db. Qed.

Lemma PostWebhook_rejected (payload : bytes) (err : error) :
  readBody r = Ok payload ->
  webhook_ConstructEventWithOptions sdk payload (signatureHeader r) (endpointSecret h)
    webhookOptions = Err err ->
  serve (PostWebhook sdk h r) db =
  {| trace := [verification h r payload;
               ELog RequestLog Error "stripe webhook signature verification failed: %v" [err]];
     w := respond http.StatusBadRequest;
     users := db |}.
Proof. webhook_path sdk h r db. Qed.

Lemma PostWebhook_unhandled (payload : bytes) (event : stripe.Event.t) :
  readBody r = Ok payload ->
  webhook_ConstructEventWithOptions sdk payload (signatureHeader r) (endpointSecret h)
    webhookOptions = Ok event ->
  isSubscriptionEvent (stripe.Event.Type_ event) = false ->
  serve (PostWebhook sdk h r) db =
  {| trace := [verification h r payload;
               ELog Logbuch Warn "got stripe event '%s' with no handler defined"
                 [stripe.Event.Type_ event]];
     w := respond http.StatusOK;
     users := db |}.
Proof. webhook_path sdk h r db. Qed.

Lemma PostWebhook_parse_error (payload : bytes) (event : stripe.Event.t)
    (data : stripe.EventData.t) (err : error) :
  readBody r = Ok payload ->
  webhook_ConstructEventWithOptions sdk payload (signatureHeader r) (endpointSecret h)
    webhookOptions = Ok event ->
  isSubscriptionEvent (stripe.Event.Type_ event) = true ->
  stripe.Event.Data event = Some data ->
  json_Unmarshal sdk (stripe.EventData.Raw data) = Err err ->
  serve (PostWebhook sdk h r) db =
  {| trace := [verification h r payload;
               EUnmarshal (stripe.EventData.Raw data);
               ELog RequestLog Error "failed to parse stripe webhook payload: %v" [err]];
     w := respond http.StatusBadRequest;
     users := db |}.
Proof. webhook_path sdk h r db. Qed.

Lemma PostWebhook_fetch_error (payload : bytes) (event : stripe.Event.t)
    (data : stripe.EventData.t) (subscription : stripe.Subscription.t)
    (reference : stripe.Customer.t) (err : error) :
  readBody r = Ok payload ->
  webhook_ConstructEventWithOptions sdk payload (signatureHeader r) (endpointSecret h)
    webhookOptions = Ok event ->
  isSubscriptionEvent (stripe.Event.Type_ event) = true ->
  stripe.Event.Data event = Some data ->
  json_Unmarshal sdk (stripe.EventData.Raw data) = Ok subscription ->
  stripe.Subscription.Customer subscription = Some reference ->
  stripeCustomer_Get sdk (stripe.Customer.ID reference) = Err err ->
  serve (PostWebhook sdk h r) db =
  {| trace := [verification h r payload;
               EUnmarshal (stripe.EventData.Raw data);
               ECustomerGet (stripe.Customer.ID reference);
               ELog RequestLog Error "failed to fetch stripe customer (%s): %v"
                 [stripe.Customer.ID reference; err]];
     w := respond http.StatusBadRequest;
     users := db |}.
Proof. webhook_path sdk h r db. Qed.

Lemma PostWebhook_handled (payload : bytes) (event : stripe.Event.t)
    (data : stripe.EventData.t) (subscription : stripe.Subscription.t)
    (reference customer : stripe.Customer.t) :
  readBody r = Ok payload ->
  webhook_ConstructEventWithOptions sdk payload (signatureHeader r) (endpointSecret h)
    webhookOptions = Ok event ->
  isSubscriptionEvent (stripe.Event.Type_ event) = true ->
  stripe.Event.Data event = Some data ->
  json_Unmarshal sdk (stripe.EventData.Raw data) = Ok subscription ->
  stripe.Subscription.Customer subscription = Some reference ->
  stripeCustomer_Get sdk (stripe.Customer.ID reference) = Ok customer ->
  serve (PostWebhook sdk h r) db =
  {| trace := [verification h r payload;
               EUnmarshal (stripe.EventData.Raw data);
               ECustomerGet (stripe.Customer.ID reference);
               ELog Logbuch Info "associated stripe customer %s with user %s"
                 [stripe.Customer.ID customer; stripe.Customer.Email customer];
               ELog Logbuch Info
                 "received stripe subscription event of type '%s' for subscription '%d' (customer '%s' with email '%s')."
                 [stripe.Event.Type_ event; stripe.Subscription.ID subscription;
                  stripe.Customer.ID customer; stripe.Customer.Email customer]];
     w := respond http.StatusOK;
     users := db |}.
Proof. webhook_path sdk h r db. Qed.

(** The two ways that end in a panic: nothing is written, nothing is
    logged by the handler. *)
Lemma PostWebhook_no_data (payload : bytes) (event : stripe.Event.t) :
  readBody r = Ok payload ->
  webhook_ConstructEventWithOptions sdk payload (signatureHeader r) (endpointSecret h)
    webhookOptions = Ok event ->
  isSubscriptionEvent (stripe.Event.Type_ event) = true ->
  stripe.Event.Data event = None ->
  PostWebhook sdk h r (init db) =
  (Panicked nilDereference,
   {| trace := [verification h r payload]; w := http.fresh; users := db |}).
Proof.
  intros. destruct (PostWebhook_run sdk h r db); same_call;
    try reflexivity; try discriminate.
Qed.

Lemma PostWebhook_no_customer (payload : bytes) (event : stripe.Event.t)
    (data : stripe.EventData.t) (subscription : stripe.Subscription.t) :
  readBody r = Ok payload ->
  webhook_ConstructEventWithOptions sdk payload (signatureHeader r) (endpointSecret h)
    webhookOptions = Ok event ->
  isSubscriptionEvent (stripe.Event.Type_ event) = true ->
  stripe.Event.Data event = Some data ->
  json_Unmarshal sdk (stripe.EventData.Raw data) = Ok subscription ->
  stripe.Subscription.Customer subscription = None ->
  PostWebhook sdk h r (init db) =
  (Panicked nilDereference,
   {| trace := [verification h r payload; EUnmarshal (stripe.EventData.Raw data)];
      w := http.fresh; users := db |}).
Proof.
  intros. destruct (PostWebhook_run sdk h r db); same_call;
    try reflexivity; try discriminate.
Qed.

End WebhookPaths.

(** The verification step is only ever run on the payload read within the
    size cap, with the request's signature header and the endpoint secret. *)
Lemma verification_reached (sdk : Backend) (h : SubscriptionHandler) (r : Request)
    (db : Store) (payload : bytes) (sigHeader secret : string)
    (opts : stripe.ConstructEventOptions.t) :
  In (EConstructEvent payload sigHeader secret opts)
     (trace (serve (PostWebhook sdk h r) db)) ->
  readBody r = Ok payload /\ sigHeader = signatureHeader r
  /\ secret = endpointSecret h /\ opts = webhookOptions.
Proof.
  unfold serve. intros Hin.
  destruct (PostWebhook_run sdk h r db); simpl in Hin;
    repeat (destruct Hin as [Hin | Hin]; try discriminate Hin);
    try contradiction;
    unfold verification in Hin; injection Hin as <- <- <- <-; auto.
Qed.

Lemma isSubscriptionEvent_spec (eventType : string) :
  isSubscriptionEvent eventType = true <->
  eventType = "customer.subscription.created"
  \/ eventType = "customer.subscription.updated"
  \/ eventType = "customer.subscription.deleted".
Proof.
  unfold isSubscriptionEvent. rewrite !orb_true_iff, !String.eqb_eq. tauto.
Qed.

(** A body longer than the cap cannot be read. *)
Lemma readBody_too_large (r : Request) :
  65536 < Z.of_nat (length (http.data (Body r))) ->
  readBody r = Err "http: request body too large".
Proof.
  intros Hlen. unfold readBody, http.MaxBytesReader.
  apply Z.ltb_lt in Hlen. rewrite Hlen. reflexivity.
Qed.

(** ** Webhook ingestion *)

(** C1. Whenever the signature verification that [PostWebhook] runs on a
    request fails, the handler answers 400, fetches no customer and calls
    the provider for nothing else; all it does besides verifying is write
    one log line, and the persisted users are left as they were. *)
Theorem PostWebhook_invalid_signature (sdk : Backend) (h : SubscriptionHandler)
    (r : Request) (db : Store) (payload : bytes) (sigHeader secret : string)
    (opts : stripe.ConstructEventOptions.t) (err : error) :
  In (EConstructEvent payload sigHeader secret opts)
     (trace (serve (PostWebhook sdk h r) db)) ->
  webhook_ConstructEventWithOptions sdk payload sigHeader secret opts = Err err ->
  http.Status (w (serve (PostWebhook sdk h r) db)) = Some http.StatusBadRequest
  /\ never is_customer_fetch (trace (serve (PostWebhook sdk h r) db))
  /\ never is_provider_call (trace (serve (PostWebhook sdk h r) db))
  /\ trace (serve (PostWebhook sdk h r) db) =
       [EConstructEvent payload sigHeader secret opts;
        ELog RequestLog Error "stripe webhook signature verification failed: %v" [err]]
  /\ http.Location (w (serve (PostWebhook sdk h r) db)) = None
  /\ users (serve (PostWebhook sdk h r) db) = db.
Proof.
  intros Hrun Hsig.
  destruct (verification_reached _ _ _ _ _ _ _ _ Hrun) as (Hread & -> & -> & ->).
  rewrite (PostWebhook_rejected sdk h r db payload err Hread Hsig).
  repeat split.
Qed.

(** C2. A body of more than 65536 bytes is answered with 503 (service
    unavailable) and the signature is never verified: the handler only
    logs the read error. *)
Theorem PostWebhook_body_too_large (sdk : Backend) (h : SubscriptionHandler)
    (r : Request) (db : Store) :
  65536 < Z.of_nat (length (http.data (Body r))) ->
  http.Status (w (serve (PostWebhook sdk h r) db)) = Some http.StatusServiceUnavailable
  /\ http.StatusServiceUnavailable = 503
  /\ never is_verification (trace (serve (PostWebhook sdk h r) db))
  /\ trace (serve (PostWebhook sdk h r) db) =
       [ELog RequestLog Error "error in stripe webhook request: %v"
          ["http: request body too large"%string]]
  /\ users (serve (PostWebhook sdk h r) db) = db.
Proof.
  intros Hlen.
  rewrite (PostWebhook_unread sdk h r db _ (readBody_too_large r Hlen)).
  repeat split.
Qed.

(** C5. For a verified event of one of the three subscription types whose
    payload parses and whose customer is fetched, [PostWebhook] writes
    exactly one association line (followed by the line that reports the
    event), answers 200 and leaves the persisted users as they were.  A
    payload that parses is the payload of an event that has data, and a
    customer that is fetched is the customer the subscription names. *)
Theorem PostWebhook_subscription_event (sdk : Backend) (h : SubscriptionHandler)
    (r : Request) (db : Store) (payload : bytes) (sigHeader secret : string)
    (opts : stripe.ConstructEventOptions.t) (event : stripe.Event.t)
    (data : stripe.EventData.t) (subscription : stripe.Subscription.t)
    (reference customer : stripe.Customer.t) :
  In (EConstructEvent payload sigHeader secret opts)
     (trace (serve (PostWebhook sdk h r) db)) ->
  webhook_ConstructEventWithOptions sdk payload sigHeader secret opts = Ok event ->
  (stripe.Event.Type_ event = "customer.subscription.created"
   \/ stripe.Event.Type_ event = "customer.subscription.updated"
   \/ stripe.Event.Type_ event = "customer.subscription.deleted") ->
  stripe.Event.Data event = Some data ->
  json_Unmarshal sdk (stripe.EventData.Raw data) = Ok subscription ->
  stripe.Subscription.Customer subscription = Some reference ->
  stripeCustomer_Get sdk (stripe.Customer.ID reference) = Ok customer ->
  count isAssociationLine (trace (serve (PostWebhook sdk h r) db)) = 1%nat
  /\ In (ELog Logbuch Info "associated stripe customer %s with user %s"
           [stripe.Customer.ID customer; stripe.Customer.Email customer])
        (trace (serve (PostWebhook sdk h r) db))
  /\ trace (serve (PostWebhook sdk h r) db) =
       [EConstructEvent payload sigHeader secret opts;
        EUnmarshal (stripe.EventData.Raw data);
        ECustomerGet (stripe.Customer.ID reference);
        ELog Logbuch Info "associated stripe customer %s with user %s"
          [stripe.Customer.ID customer; stripe.Customer.Email customer];
        ELog Logbuch Info
          "received stripe subscription event of type '%s' for subscription '%d' (customer '%s' with email '%s')."
          [stripe.Event.Type_ event; stripe.Subscription.ID subscription;
           stripe.Customer.ID customer; stripe.Customer.Email customer]]
  /\ http.Status (w (serve (PostWebhook sdk h r) db)) = Some http.StatusOK
  /\ users (serve (PostWebhook sdk h r) db) = db.
Proof.
  intros Hrun Hsig Htype Hdata Hparse Hcustomer Hget.
  destruct (verification_reached _ _ _ _ _ _ _ _ Hrun) as (Hread & -> & -> & ->).
  apply isSubscriptionEvent_spec in Htype.
  rewrite (PostWebhook_handled sdk h r db payload event data subscription reference
             customer Hread Hsig Htype Hdata Hparse Hcustomer Hget).
  repeat split. simpl. auto.
Qed.

(** C6. A verified event of a subscription type that has no data, or whose
    parsed subscription names no customer, gets neither 200 nor 400:
    [handleParseSubscription] reads [event.Data.Raw] and
    [subscription.Customer.ID] through nil pointers, the handler panics,
    and no status and no log line is written. *)
Theorem PostWebhook_panics_after_verification :
  (webhook_ConstructEventWithOptions dataless smallBody
     (signatureHeader (sampleRequest alice smallBody None)) (endpointSecret rootHandler)
     webhookOptions = Ok (bareEvent "customer.subscription.created")
   /\ outcome (PostWebhook dataless rootHandler (sampleRequest alice smallBody None)) []
      = Panicked nilDereference
   /\ http.Status
        (w (serve (PostWebhook dataless rootHandler (sampleRequest alice smallBody None)) []))
      = None
   /\ trace (serve (PostWebhook dataless rootHandler (sampleRequest alice smallBody None)) [])
      = [verification rootHandler (sampleRequest alice smallBody None) smallBody])
  /\
  (webhook_ConstructEventWithOptions customerless smallBody
     (signatureHeader (sampleRequest alice smallBody None)) (endpointSecret rootHandler)
     webhookOptions = Ok (sampleEvent "customer.subscription.updated")
   /\ json_Unmarshal customerless smallBody = Ok orphanSub
   /\ outcome (PostWebhook customerless rootHandler (sampleRequest alice smallBody None)) []
      = Panicked nilDereference
   /\ http.Status
        (w (serve (PostWebhook customerless rootHandler
                     (sampleRequest alice smallBody None)) []))
      = None
   /\ trace (serve (PostWebhook customerless rootHandler
                      (sampleRequest alice smallBody None)) [])
      = [verification rootHandler (sampleRequest alice smallBody None) smallBody;
         EUnmarshal smallBody]).
Proof.
  repeat split.
Qed.

(** C7. For a verified event of any other type, [PostWebhook] answers 200
    and writes one warning; it parses nothing, fetches no customer, calls
    the provider for nothing and leaves the persisted users as they were. *)
Theorem PostWebhook_other_event (sdk : Backend) (h : SubscriptionHandler)
    (r : Request) (db : Store) (payload : bytes) (sigHeader secret : string)
    (opts : stripe.ConstructEventOptions.t) (event : stripe.Event.t) :
  In (EConstructEvent payload sigHeader secret opts)
     (trace (serve (PostWebhook sdk h r) db)) ->
  webhook_ConstructEventWithOptions sdk payload sigHeader secret opts = Ok event ->
  stripe.Event.Type_ event <> "customer.subscription.created" ->
  stripe.Event.Type_ event <> "customer.subscription.updated" ->
  stripe.Event.Type_ event <> "customer.subscription.deleted" ->
  http.Status (w (serve (PostWebhook sdk h r) db)) = Some http.StatusOK
  /\ trace (serve (PostWebhook sdk h r) db) =
       [EConstructEvent payload sigHeader secret opts;
        ELog Logbuch Warn "got stripe event '%s' with no handler defined"
          [stripe.Event.Type_ event]]
  /\ never is_parse (trace (serve (PostWebhook sdk h r) db))
  /\ never is_customer_fetch (trace (serve (PostWebhook sdk h r) db))
  /\ never is_provider_call (trace (serve (PostWebhook sdk h r) db))
  /\ users (serve (PostWebhook sdk h r) db) = db.
Proof.
  intros Hrun Hsig Hcreated Hupdated Hdeleted.
  destruct (verification_reached _ _ _ _ _ _ _ _ Hrun) as (Hread & -> & -> & ->).
  assert (Htype : isSubscriptionEvent (stripe.Event.Type_ event) = false).
  { destruct (isSubscriptionEvent (stripe.Event.Type_ event)) eqn:E; [| reflexivity].
    apply isSubscriptionEvent_spec in E. tauto. }
  rewrite (PostWebhook_unhandled sdk h r db payload event Hread Hsig Htype).
  repeat split.
Qed.

(** ** The paths through [PostCheckout] and [PostPortal] *)

Section InteractivePaths.

Variable sdk : Backend.
Variable h : SubscriptionHandler.
Variable r : Request.
Variable db : Store.

Ltac interactive_path :=
  unfold serve, PostCheckout, PostPortal, findStripeCustomerByEmail,
    CheckoutSession_New, PortalSession_New, Customer_Search,
    devReload, loadTemplates, Log_Request_Error, bind, emit, ret;
  repeat match goal with
         | H : _ <> EmptyString |- _ => apply String.eqb_neq in H
         end;
  repeat match goal with
         | H : String.eqb _ _ = _ |- _ => rewrite H
         | H : models.Email _ = _ |- _ => rewrite H
         | H : ParseForm r = _ |- _ => rewrite H
         end;
  change (stripe.CustomerSearchParams.mk
            (fmt.Sprintf ("email:" ++ dquote ++ "%s" ++ dquote)
               [models.Email (Principal r)]))
    with (emailQuery (models.Email (Principal r)));
  destruct (conf.IsDev (config h)); cbn -[emailQuery];
  repeat match goal with
         | H : _ = _ |- _ => rewrite H; cbn -[emailQuery]
         end;
  try reflexivity.

Lemma PostCheckout_no_email :
  models.Email (Principal r) = EmptyString ->
  serve (PostCheckout sdk h r) db =
  {| trace := devReload h;
     w := {| http.Status := Some http.StatusFound;
             http.Location := Some (settingsError h "missing e-mail address") |};
     users := db |}.
Proof. intros Hemail. interactive_path. Qed.

Lemma PostCheckout_bad_form (err : error) :
  models.Email (Principal r) <> EmptyString ->
  ParseForm r = Some err ->
  serve (PostCheckout sdk h r) db =
  {| trace := devReload h;
     w := {| http.Status := Some http.StatusFound;
             http.Location := Some (settingsError h "missing form values") |};
     users := db |}.
Proof. intros Hemail Hform. interactive_path. Qed.

Lemma PostCheckout_provider_error (err : error) :
  models.Email (Principal r) <> EmptyString ->
  ParseForm r = None ->
  stripeCheckoutSession_New sdk (checkoutParams h (Principal r)) = Err err ->
  serve (PostCheckout sdk h r) db =
  {| trace := (devReload h ++
               [ECheckoutSessionNew (checkoutParams h (Principal r));
                ELog RequestLog Error "failed to create stripe checkout session: %v" [err]])%list;
     w := {| http.Status := Some http.StatusFound;
             http.Location := Some (settingsError h "something went wrong") |};
     users := db |}.
Proof. intros Hemail Hform Hnew. interactive_path. Qed.

Lemma PostCheckout_session (session : stripe.CheckoutSession.t) :
  models.Email (Principal r) <> EmptyString ->
  ParseForm r = None ->
  stripeCheckoutSession_New sdk (checkoutParams h (Principal r)) = Ok session ->
  serve (PostCheckout sdk h r) db =
  {| trace := (devReload h ++ [ECheckoutSessionNew (checkoutParams h (Principal r))])%list;
     w := {| http.Status := Some http.StatusSeeOther;
             http.Location := Some (stripe.CheckoutSession.URL session) |};
     users := db |}.
Proof. intros Hemail Hform Hnew. interactive_path. Qed.

Lemma PostPortal_no_email :
  models.Email (Principal r) = EmptyString ->
  serve (PostPortal sdk h r) db =
  {| trace := devReload h;
     w := {| http.Status := Some http.StatusFound;
             http.Location := Some (settingsError h noSubscriptionFound) |};
     users := db |}.
Proof. intros Hemail. interactive_path. Qed.

Lemma PostPortal_search_failed (err : error) :
  models.Email (Principal r) <> EmptyString ->
  stripe.CustomerSearchIter.Err_
    (stripeCustomer_Search sdk (emailQuery (models.Email (Principal r)))) = Some err ->
  serve (PostPortal sdk h r) db =
  {| trace := (devReload h ++ [ECustomerSearch (emailQuery (models.Email (Principal r)))])%list;
     w := {| http.Status := Some http.StatusFound;
             http.Location := Some (settingsError h noSubscriptionFound) |};
     users := db |}.
Proof. intros Hemail Herr. interactive_path. Qed.

Lemma PostPortal_no_match :
  models.Email (Principal r) <> EmptyString ->
  stripe.CustomerSearchIter.Err_
    (stripeCustomer_Search sdk (emailQuery (models.Email (Principal r)))) = None ->
  stripe.CustomerSearchIter.items
    (stripeCustomer_Search sdk (emailQuery (models.Email (Principal r)))) = [] ->
  serve (PostPortal sdk h r) db =
  {| trace := (devReload h ++ [ECustomerSearch (emailQuery (models.Email (Principal r)))])%list;
     w := {| http.Status := Some http.StatusFound;
             http.Location := Some (settingsError h noSubscriptionFound) |};
     users := db |}.
Proof. intros Hemail Herr Hitems. interactive_path. Qed.

Lemma PostPortal_provider_error (customer : stripe.Customer.t)
    (others : list stripe.Customer.t) (err : error) :
  models.Email (Principal r) <> EmptyString ->
  stripe.CustomerSearchIter.Err_
    (stripeCustomer_Search sdk (emailQuery (models.Email (Principal r)))) = None ->
  stripe.CustomerSearchIter.items
    (stripeCustomer_Search sdk (emailQuery (models.Email (Principal r)))) = customer :: others ->
  stripePortalSession_New sdk (portalParams h customer) = Err err ->
  serve (PostPortal sdk h r) db =
  {| trace := (devReload h ++
               [ECustomerSearch (emailQuery (models.Email (Principal r)));
                EPortalSessionNew (portalParams h customer);
                ELog RequestLog Error "failed to create stripe portal session: %v" [err]])%list;
     w := {| http.Status := Some http.StatusFound;
             http.Location := Some (settingsError h "something went wrong") |};
     users := db |}.
Proof. intros Hemail Herr Hitems Hnew. interactive_path. Qed.

Lemma PostPortal_session (customer : stripe.Customer.t)
    (others : list stripe.Customer.t) (session : stripe.BillingPortalSession.t) :
  models.Email (Principal r) <> EmptyString ->
  stripe.CustomerSearchIter.Err_
    (stripeCustomer_Search sdk (emailQuery (models.Email (Principal r)))) = None ->
  stripe.CustomerSearchIter.items
    (stripeCustomer_Search sdk (emailQuery (models.Email (Principal r)))) = customer :: others ->
  stripePortalSession_New sdk (portalParams h customer) = Ok session ->
  serve (PostPortal sdk h r) db =
  {| trace := (devReload h ++
               [ECustomerSearch (emailQuery (models.Email (Principal r)));
                EPortalSessionNew (portalParams h customer)])%list;
     w := {| http.Status := Some http.StatusSeeOther;
             http.Location := Some (stripe.BillingPortalSession.URL session) |};
     users := db |}.
Proof. intros Hemail Herr Hitems Hnew. interactive_path. Qed.

End InteractivePaths.

Lemma never_devReload (h : SubscriptionHandler) (p : Effect -> bool) :
  p ELoadTemplates = false -> never p (devReload h).
Proof.
  intros Hp. unfold never, devReload.
  destruct (conf.IsDev (config h)); simpl; [rewrite Hp |]; reflexivity.
Qed.

Lemma never_app (p : Effect -> bool) (t1 t2 : list Effect) :
  never p t1 -> never p t2 -> never p (t1 ++ t2).
Proof.
  unfold never. intros H1 H2. rewrite forallb_app, H1, H2. reflexivity.
Qed.

Lemma filter_devReload (h : SubscriptionHandler) (p : Effect -> bool) (t : list Effect) :
  p ELoadTemplates = false -> filter p (devReload h ++ t) = filter p t.
Proof.
  intros Hp. unfold devReload.
  destruct (conf.IsDev (config h)); simpl; [rewrite Hp |]; reflexivity.
Qed.

Lemma In_devReload (h : SubscriptionHandler) (e : Effect) :
  In e (devReload h) -> e = ELoadTemplates.
Proof.
  unfold devReload. destruct (conf.IsDev (config h)); simpl; intuition.
Qed.

Lemma contains_app_r (a b sub : string) :
  contains b sub = true -> contains (a ++ b) sub = true.
Proof.
  intros Hb. induction a as [| c a IH]; simpl; [exact Hb |].
  rewrite IH. apply orb_true_r.
Qed.

(** A one-character pattern occurs in a concatenation exactly when it
    occurs in one of the two parts. *)
Lemma contains_char_app (c : ascii) (a b : string) :
  contains (a ++ b) (String c EmptyString)
  = contains a (String c EmptyString) || contains b (String c EmptyString).
Proof.
  induction a as [| x a IH].
  - destruct b; reflexivity.
  - cbn [append contains hasPrefix]. rewrite IH.
    rewrite !andb_true_r. apply orb_assoc.
Qed.

Lemma settingsError_flag (h : SubscriptionHandler) (msg : string) :
  hasQueryFlag (settingsError h msg) "error" = true.
Proof.
  unfold hasQueryFlag, settingsError.
  rewrite contains_app_r; reflexivity.
Qed.

(** ** Checkout and portal *)

(** C3. For a principal without e-mail address, [PostCheckout] and
    [PostPortal] both redirect to the settings page with an [error]
    parameter in the query, and neither sends anything to the provider. *)
Theorem empty_email_redirects (sdk : Backend) (h : SubscriptionHandler)
    (r : Request) (db : Store) :
  models.Email (Principal r) = EmptyString ->
  (redirected (serve (PostCheckout sdk h r) db) http.StatusFound
     (settingsError h "missing e-mail address")
   /\ hasQueryFlag (settingsError h "missing e-mail address") "error" = true
   /\ never is_provider_call (trace (serve (PostCheckout sdk h r) db)))
  /\
  (redirected (serve (PostPortal sdk h r) db) http.StatusFound
     (settingsError h noSubscriptionFound)
   /\ hasQueryFlag (settingsError h noSubscriptionFound) "error" = true
   /\ never is_provider_call (trace (serve (PostPortal sdk h r) db))).
Proof.
  intros Hemail.
  rewrite (PostCheckout_no_email sdk h r db Hemail).
  rewrite (PostPortal_no_email sdk h r db Hemail).
  unfold redirected; simpl.
  repeat split; try apply settingsError_flag; apply never_devReload; reflexivity.
Qed.

(** C4, amended.  For the principal [a@b.com] submitting a checkout form
    that parses, with price [price_123] and public URL [https://x.test]
    configured, the only thing [PostCheckout] sends to the provider is one
    checkout-session request in subscription mode whose single line item
    references [price_123] and whose success and cancel URLs are the public
    URL followed by the configured base path and [/subscription/success],
    [/subscription/cancel]; with an empty base path these are
    [https://x.test/subscription/success] and
    [https://x.test/subscription/cancel]. *)
Theorem PostCheckout_session_request (sdk : Backend) (h : SubscriptionHandler)
    (r : Request) (db : Store) :
  models.Email (Principal r) = "a@b.com" ->
  conf.StandardPriceId (conf.Subscriptions (config h)) = "price_123" ->
  PublicUrl h = "https://x.test" ->
  ParseForm r = None ->
  exists params,
    filter is_provider_call (trace (serve (PostCheckout sdk h r) db))
      = [ECheckoutSessionNew params]
    /\ stripe.CheckoutSessionParams.Mode params = "subscription"
    /\ stripe.CheckoutSessionParams.LineItems params =
         [ {| stripe.CheckoutSessionLineItemParams.Price := "price_123";
              stripe.CheckoutSessionLineItemParams.Quantity := 1 |} ]
    /\ stripe.CheckoutSessionParams.SuccessURL params =
         ("https://x.test" ++ BasePath h ++ "/subscription/success")%string
    /\ stripe.CheckoutSessionParams.CancelURL params =
         ("https://x.test" ++ BasePath h ++ "/subscription/cancel")%string
    /\ (BasePath h = EmptyString ->
        stripe.CheckoutSessionParams.SuccessURL params = "https://x.test/subscription/success"
        /\ stripe.CheckoutSessionParams.CancelURL params = "https://x.test/subscription/cancel").
Proof.
  intros Hemail Hprice Hpublic Hform.
  assert (Hnonempty : models.Email (Principal r) <> EmptyString)
    by (rewrite Hemail; discriminate).
  exists (checkoutParams h (Principal r)). split.
  - destruct (stripeCheckoutSession_New sdk (checkoutParams h (Principal r)))
      as [session | err] eqn:Hnew.
    + rewrite (PostCheckout_session sdk h r db session Hnonempty Hform Hnew).
      simpl trace. apply filter_devReload. reflexivity.
    + rewrite (PostCheckout_provider_error sdk h r db err Hnonempty Hform Hnew).
      simpl trace. apply filter_devReload. reflexivity.
  - unfold checkoutParams; simpl. rewrite Hprice, Hpublic.
    repeat split; intros; try reflexivity;
      match goal with H : BasePath _ = _ |- _ => rewrite H end; reflexivity.
Qed.

(** C10. When the principal has an e-mail address and the form of the
    checkout request does not parse, [PostCheckout] redirects to the
    settings page with the error [missing form values] and sends nothing
    to the provider. *)
Theorem PostCheckout_unparsable_form (sdk : Backend) (h : SubscriptionHandler)
    (r : Request) (db : Store) (err : error) :
  models.Email (Principal r) <> EmptyString ->
  ParseForm r = Some err ->
  redirected (serve (PostCheckout sdk h r) db) http.StatusFound
    (settingsError h "missing form values")
  /\ hasQueryFlag (settingsError h "missing form values") "error" = true
  /\ never is_provider_call (trace (serve (PostCheckout sdk h r) db))
  /\ users (serve (PostCheckout sdk h r) db) = db.
Proof.
  intros Hemail Hform.
  rewrite (PostCheckout_bad_form sdk h r db err Hemail Hform).
  unfold redirected; simpl.
  repeat split; try apply settingsError_flag. apply never_devReload; reflexivity.
Qed.

(** C8. [PostPortal] looks the customer up with one search for the exact
    e-mail address of the principal.  When the search fails or yields no
    customer, it redirects to the settings page with an [error] parameter
    and requests no portal session.  When the search yields customers, the
    portal session is requested for the first of them, whatever follows. *)
Theorem PostPortal_customer_lookup (sdk : Backend) (h : SubscriptionHandler)
    (r : Request) (db : Store) :
  (forall q, In (ECustomerSearch q) (trace (serve (PostPortal sdk h r) db)) ->
             q = emailQuery (models.Email (Principal r)))
  /\ (models.Email (Principal r) <> EmptyString ->
      filter is_search (trace (serve (PostPortal sdk h r) db))
        = [ECustomerSearch (emailQuery (models.Email (Principal r)))])
  /\ (stripe.CustomerSearchIter.Err_
        (stripeCustomer_Search sdk (emailQuery (models.Email (Principal r)))) <> None
      \/ stripe.CustomerSearchIter.items
           (stripeCustomer_Search sdk (emailQuery (models.Email (Principal r)))) = [] ->
      redirected (serve (PostPortal sdk h r) db) http.StatusFound
        (settingsError h noSubscriptionFound)
      /\ hasQueryFlag (settingsError h noSubscriptionFound) "error" = true
      /\ never is_portal_session (trace (serve (PostPortal sdk h r) db)))
  /\ (forall customer others,
        models.Email (Principal r) <> EmptyString ->
        stripe.CustomerSearchIter.Err_
          (stripeCustomer_Search sdk (emailQuery (models.Email (Principal r)))) = None ->
        stripe.CustomerSearchIter.items
          (stripeCustomer_Search sdk (emailQuery (models.Email (Principal r))))
          = customer :: others ->
        filter is_portal_session (trace (serve (PostPortal sdk h r) db))
          = [EPortalSessionNew (portalParams h customer)]).
Proof.
  destruct (String.eqb_spec (models.Email (Principal r)) EmptyString) as [Hemail | Hemail].
  { rewrite (PostPortal_no_email sdk h r db Hemail). unfold redirected; simpl.
    repeat split; try contradiction; try apply settingsError_flag.
    - intros q Hq. apply In_devReload in Hq. discriminate Hq.
    - apply never_devReload; reflexivity. }
  destruct (stripe.CustomerSearchIter.Err_
              (stripeCustomer_Search sdk (emailQuery (models.Email (Principal r)))))
    as [err |] eqn:Herr.
  { rewrite (PostPortal_search_failed sdk h r db err Hemail Herr).
    unfold redirected; simpl trace; simpl w.
    repeat split; try discriminate; try apply settingsError_flag.
    - intros q Hq. apply in_app_or in Hq. destruct Hq as [Hq | [Hq | []]].
      + apply In_devReload in Hq. discriminate Hq.
      + injection Hq as <-. reflexivity.
    - intros _. apply filter_devReload. reflexivity.
    - apply never_app; [apply never_devReload |]; reflexivity. }
  destruct (stripe.CustomerSearchIter.items
              (stripeCustomer_Search sdk (emailQuery (models.Email (Principal r)))))
    as [| customer others] eqn:Hitems.
  { rewrite (PostPortal_no_match sdk h r db Hemail Herr Hitems).
    unfold redirected; simpl trace; simpl w.
    repeat split; try discriminate; try apply settingsError_flag.
    - intros q Hq. apply in_app_or in Hq. destruct Hq as [Hq | [Hq | []]].
      + apply In_devReload in Hq. discriminate Hq.
      + injection Hq as <-. reflexivity.
    - intros _. apply filter_devReload. reflexivity.
    - apply never_app; [apply never_devReload |]; reflexivity. }
  assert (Hsearch : forall rest q,
             (forall e, In e rest -> is_search e = false) ->
             In (ECustomerSearch q)
                (devReload h ++
                 ECustomerSearch (emailQuery (models.Email (Principal r))) :: rest) ->
             q = emailQuery (models.Email (Principal r))).
  { intros rest q Hrest Hq. apply in_app_or in Hq. destruct Hq as [Hq | [Hq | Hq]].
    - apply In_devReload in Hq. discriminate Hq.
    - injection Hq as <-. reflexivity.
    - apply Hrest in Hq. discriminate Hq. }
  destruct (stripePortalSession_New sdk (portalParams h customer))
    as [session | err] eqn:Hnew.
  - rewrite (PostPortal_session sdk h r db customer others session
               Hemail Herr Hitems Hnew).
    simpl trace. split; [| split; [| split]].
    + intros q. apply Hsearch. simpl. intros e [<- | []]. reflexivity.
    + intros _. apply filter_devReload. reflexivity.
    + intros [H | H]; [contradiction | discriminate].
    + intros c o _ _ Hc. injection Hc as <- <-. apply filter_devReload. reflexivity.
  - rewrite (PostPortal_provider_error sdk h r db customer others err
               Hemail Herr Hitems Hnew).
    simpl trace. split; [| split; [| split]].
    + intros q. apply Hsearch. simpl. intros e [<- | [<- | []]]; reflexivity.
    + intros _. apply filter_devReload. reflexivity.
    + intros [H | H]; [contradiction | discriminate].
    + intros c o _ _ Hc. injection Hc as <- <-. apply filter_devReload. reflexivity.
Qed.

(** ** Redirect endpoints *)

(** C9, amended.  [GetCheckoutSuccess] and [GetCheckoutCancel] ask nothing
    of any collaborator, leave the persisted users as they were and answer
    every request with the same redirect (302): the former to
    [<base path>/settings?success=...#subscription], which carries a
    [success] parameter; the latter to [<base path>/settings#subscription],
    which adds no query to the base path. *)
Theorem redirect_endpoints (h : SubscriptionHandler) (r : Request) (db : Store) :
  serve (GetCheckoutSuccess h r) db =
    {| trace := [];
       w := {| http.Status := Some http.StatusFound;
               http.Location :=
                 Some (BasePath h
                       ++ "/settings?success=you have successfully subscribed to Wakapi!#subscription")%string |};
       users := db |}
  /\ serve (GetCheckoutCancel h r) db =
    {| trace := [];
       w := {| http.Status := Some http.StatusFound;
               http.Location := Some (BasePath h ++ "/settings#subscription")%string |};
       users := db |}
  /\ hasQueryFlag
       (BasePath h
        ++ "/settings?success=you have successfully subscribed to Wakapi!#subscription")
       "success" = true
  /\ contains (BasePath h ++ "/settings#subscription") "?" = contains (BasePath h) "?"
  /\ (forall r', serve (GetCheckoutSuccess h r') db = serve (GetCheckoutSuccess h r) db)
  /\ (forall r', serve (GetCheckoutCancel h r') db = serve (GetCheckoutCancel h r) db).
Proof.
  repeat split.
  - unfold hasQueryFlag. rewrite contains_app_r; reflexivity.
  - rewrite contains_char_app. apply orb_false_r.
Qed.

(** * Concrete runs *)

Lemma PostWebhook_invalid_signature_run :
  http.Status (w (serve (PostWebhook rejecting rootHandler
                           (sampleRequest alice smallBody None)) []))
  = Some 400.
Proof.
  refine (proj1 (PostWebhook_invalid_signature rejecting rootHandler
                   (sampleRequest alice smallBody None) []
                   smallBody "t=1,v1=5257a869" "whsec_1" webhookOptions
                   "webhook had no valid signature" _ _)).
  - simpl. left. reflexivity.
  - reflexivity.
Defined.

Lemma PostWebhook_body_too_large_run :
  http.Status (w (serve (PostWebhook (accepting "customer.subscription.created") rootHandler
                           (sampleRequest alice oversizedBody None)) []))
  = Some 503.
Proof.
  refine (proj1 (PostWebhook_body_too_large (accepting "customer.subscription.created")
                   rootHandler (sampleRequest alice oversizedBody None) [] _)).
  vm_compute. reflexivity.
Defined.

Lemma empty_email_redirects_run :
  http.Location (w (serve (PostCheckout rejecting rootHandler
                             (sampleRequest nomail smallBody None)) []))
  = Some "/settings?error=missing e-mail address#subscription".
Proof.
  refine (proj2 (proj1 (proj1 (empty_email_redirects rejecting rootHandler
                                 (sampleRequest nomail smallBody None) [] _)))).
  reflexivity.
Defined.

Lemma PostCheckout_session_request_run :
  exists params,
    filter is_provider_call
      (trace (serve (PostCheckout rejecting rootHandler
                       (sampleRequest alice smallBody None)) []))
      = [ECheckoutSessionNew params]
    /\ stripe.CheckoutSessionParams.SuccessURL params = "https://x.test/subscription/success"
    /\ stripe.CheckoutSessionParams.CancelURL params = "https://x.test/subscription/cancel".
Proof.
  destruct (PostCheckout_session_request rejecting rootHandler
              (sampleRequest alice smallBody None) []
              eq_refl eq_refl eq_refl eq_refl)
    as (params & Hsent & _ & _ & _ & _ & Hroot).
  exists params. split; [exact Hsent | exact (Hroot eq_refl)].
Defined.

Lemma PostWebhook_subscription_event_run :
  count isAssociationLine
    (trace (serve (PostWebhook (accepting "customer.subscription.updated") rootHandler
                     (sampleRequest alice smallBody None)) []))
  = 1%nat.
Proof.
  refine (proj1 (PostWebhook_subscription_event
                   (accepting "customer.subscription.updated") rootHandler
                   (sampleRequest alice smallBody None) []
                   smallBody "t=1,v1=5257a869" "whsec_1" webhookOptions
                   (sampleEvent "customer.subscription.updated")
                   {| stripe.EventData.Raw := smallBody |} sub1 cus1 cus1
                   _ _ _ _ _ _ _)).
  - simpl. left. reflexivity.
  - reflexivity.
  - right. left. reflexivity.
  - reflexivity.
  - reflexivity.
  - reflexivity.
  - reflexivity.
Defined.

Lemma PostWebhook_other_event_run :
  http.Status (w (serve (PostWebhook (accepting "invoice.paid") rootHandler
                           (sampleRequest alice smallBody None)) []))
  = Some 200.
Proof.
  refine (proj1 (PostWebhook_other_event (accepting "invoice.paid") rootHandler
                   (sampleRequest alice smallBody None) []
                   smallBody "t=1,v1=5257a869" "whsec_1" webhookOptions
                   (sampleEvent "invoice.paid") _ _ _ _ _)).
  - simpl. left. reflexivity.
  - reflexivity.
  - discriminate.
  - discriminate.
  - discriminate.
Defined.

Lemma PostPortal_customer_lookup_run :
  never is_portal_session
    (trace (serve (PostPortal rejecting rootHandler
                     (sampleRequest alice smallBody None)) []))
  /\ filter is_portal_session
       (trace (serve (PostPortal (accepting "invoice.paid") rootHandler
                        (sampleRequest alice smallBody None)) []))
     = [EPortalSessionNew (portalParams rootHandler cus1)].
Proof.
  split.
  - refine (proj2 (proj2 (proj1 (proj2 (proj2
              (PostPortal_customer_lookup rejecting rootHandler
                 (sampleRequest alice smallBody None) []))) _))).
    right. reflexivity.
  - refine (proj2 (proj2 (proj2
              (PostPortal_customer_lookup (accepting "invoice.paid") rootHandler
                 (sampleRequest alice smallBody None) []))) cus1 [cus2] _ _ _).
    + discriminate.
    + reflexivity.
    + reflexivity.
Defined.

Lemma PostCheckout_unparsable_form_run :
  http.Location (w (serve (PostCheckout rejecting rootHandler
                             (sampleRequest alice smallBody (Some "invalid semicolon separator in query"))) []))
  = Some "/settings?error=missing form values#subscription".
Proof.
  refine (proj2 (proj1 (PostCheckout_unparsable_form rejecting rootHandler
                          (sampleRequest alice smallBody
                             (Some "invalid semicolon separator in query")) []
                          "invalid semicolon separator in query" _ _))).
  - discriminate.
  - reflexivity.
Defined.

(** ** Where the stated properties fail *)

(** C4 as stated: under a base path, the success and cancel URLs sent to
    the provider are not the ones of the scenario. *)
Lemma PostCheckout_base_path_run :
  filter is_provider_call
    (trace (serve (PostCheckout rejecting prefixedHandler
                     (sampleRequest alice smallBody None)) []))
  = [ECheckoutSessionNew (checkoutParams prefixedHandler alice)]
  /\ models.Email alice = "a@b.com"
  /\ conf.StandardPriceId (conf.Subscriptions (config prefixedHandler)) = "price_123"
  /\ PublicUrl prefixedHandler = "https://x.test"
  /\ stripe.CheckoutSessionParams.SuccessURL (checkoutParams prefixedHandler alice)
     = "https://x.test/wakapi/subscription/success"
  /\ stripe.CheckoutSessionParams.SuccessURL (checkoutParams prefixedHandler alice)
     <> "https://x.test/subscription/success"
  /\ stripe.CheckoutSessionParams.CancelURL (checkoutParams prefixedHandler alice)
     = "https://x.test/wakapi/subscription/cancel"
  /\ stripe.CheckoutSessionParams.CancelURL (checkoutParams prefixedHandler alice)
     <> "https://x.test/subscription/cancel".
Proof.
  repeat split; discriminate.
Qed.

(** C9 as stated: the redirect of [GetCheckoutCancel] carries neither a
    [cancel] nor a [success] parameter; it has no query at all. *)
Lemma GetCheckoutCancel_no_flag :
  http.Location (w (serve (GetCheckoutCancel rootHandler
                             (sampleRequest alice smallBody None)) []))
  = Some "/settings#subscription"
  /\ hasQueryFlag "/settings#subscription" "cancel" = false
  /\ hasQueryFlag "/settings#subscription" "success" = false
  /\ contains "/settings#subscription" "?" = false.
Proof.
  repeat split.
Qed.

(** * Further properties of the handlers *)

(** ** Webhook ingestion, all requests *)

(** What can be read: the whole body, when its transfer does not fail and
    it has at most 65536 bytes. *)
Lemma readBody_spec (r : Request) (payload : bytes) :
  readBody r = Ok payload <->
  http.failure (Body r) = None
  /\ Z.of_nat (length (http.data (Body r))) <= 65536
  /\ payload = http.data (Body r).
Proof.
  unfold readBody, http.MaxBytesReader, ioutil.ReadAll.
  destruct (65536 <? Z.of_nat (length (http.data (Body r)))) eqn:Hcap; simpl.
  - apply Z.ltb_lt in Hcap. split; [discriminate |].
    intros (_ & Hle & _). exfalso. apply (Z.lt_irrefl 65536).
    eapply Z.lt_le_trans; eassumption.
  - apply Z.ltb_ge in Hcap.
    destruct (http.failure (Body r)) as [e |]; split.
    + discriminate.
    + intros (H & _). discriminate H.
    + intros H. injection H as <-. auto.
    + intros (_ & _ & ->). reflexivity.
Qed.

(** X1. [PostWebhook] never answers with a redirect.  Either it returns,
    having written exactly one of the statuses 200, 400 and 503, or it
    panics, having written no status.  The status is 503 exactly when the
    transfer of the body fails or the body has more than 65536 bytes.  It
    panics exactly when the event that passed the verification has one of
    the three subscription types and either has no data or parses into a
    subscription that names no customer. *)
Theorem PostWebhook_always_answers (sdk : Backend) (h : SubscriptionHandler)
    (r : Request) (db : Store) :
  http.Location (w (serve (PostWebhook sdk h r) db)) = None
  /\ ((outcome (PostWebhook sdk h r) db = Returned tt
       /\ (http.Status (w (serve (PostWebhook sdk h r) db)) = Some 200
           \/ http.Status (w (serve (PostWebhook sdk h r) db)) = Some 400
           \/ http.Status (w (serve (PostWebhook sdk h r) db)) = Some 503))
      \/ (outcome (PostWebhook sdk h r) db = Panicked nilDereference
          /\ http.Status (w (serve (PostWebhook sdk h r) db)) = None))
  /\ (http.Status (w (serve (PostWebhook sdk h r) db)) = Some 503 <->
      http.failure (Body r) <> None
      \/ 65536 < Z.of_nat (length (http.data (Body r))))
  /\ (outcome (PostWebhook sdk h r) db = Panicked nilDereference <->
      exists event,
        webhook_ConstructEventWithOptions sdk (http.data (Body r))
          (Header_Get (Header r) "Stripe-Signature")
          (conf.StripeEndpointSecret (conf.Subscriptions (config h)))
          {| stripe.ConstructEventOptions.IgnoreAPIVersionMismatch := true |} = Ok event
        /\ http.failure (Body r) = None
        /\ Z.of_nat (length (http.data (Body r))) <= 65536
        /\ (stripe.Event.Type_ event = "customer.subscription.created"
            \/ stripe.Event.Type_ event = "customer.subscription.updated"
            \/ stripe.Event.Type_ event = "customer.subscription.deleted")
        /\ (stripe.Event.Data event = None
            \/ exists data subscription,
                 stripe.Event.Data event = Some data
                 /\ json_Unmarshal sdk (stripe.EventData.Raw data) = Ok subscription
                 /\ stripe.Subscription.Customer subscription = None)).
Proof.
  assert (Hread : forall payload, readBody r = Ok payload ->
            ~ (http.failure (Body r) <> None
               \/ 65536 < Z.of_nat (length (http.data (Body r))))).
  { intros payload Hok. apply readBody_spec in Hok. destruct Hok as (Hnone & Hle & _).
    intros [Hfail | Hlt]; [contradiction |].
    apply (Z.lt_irrefl 65536). eapply Z.lt_le_trans; eassumption. }
  assert (Hunread : forall err, readBody r = Err err ->
            http.failure (Body r) <> None
            \/ 65536 < Z.of_nat (length (http.data (Body r)))).
  { intros err Herr.
    destruct (Z.lt_ge_cases 65536 (Z.of_nat (length (http.data (Body r)))))
      as [Hlt | Hle]; [right; exact Hlt | left].
    intros Hnone.
    assert (Hok : readBody r = Ok (http.data (Body r)))
      by (apply readBody_spec; auto).
    rewrite Hok in Herr. discriminate Herr. }
  assert (Hpanic : forall payload,
            readBody r = Ok payload ->
            (exists event,
               webhook_ConstructEventWithOptions sdk (http.data (Body r))
                 (signatureHeader r) (endpointSecret h) webhookOptions = Ok event
               /\ http.failure (Body r) = None
               /\ Z.of_nat (length (http.data (Body r))) <= 65536
               /\ (stripe.Event.Type_ event = "customer.subscription.created"
                   \/ stripe.Event.Type_ event = "customer.subscription.updated"
                   \/ stripe.Event.Type_ event = "customer.subscription.deleted")
               /\ (stripe.Event.Data event = None
                   \/ exists data subscription,
                        stripe.Event.Data event = Some data
                        /\ json_Unmarshal sdk (stripe.EventData.Raw data)
                           = Ok subscription
                        /\ stripe.Subscription.Customer subscription = None)) ->
            exists event,
              webhook_ConstructEventWithOptions sdk payload
                (signatureHeader r) (endpointSecret h) webhookOptions = Ok event
              /\ isSubscriptionEvent (stripe.Event.Type_ event) = true
              /\ (stripe.Event.Data event = None
                  \/ exists data subscription,
                       stripe.Event.Data event = Some data
                       /\ json_Unmarshal sdk (stripe.EventData.Raw data)
                          = Ok subscription
                       /\ stripe.Subscription.Customer subscription = None)).
  { intros payload Hok (event & Hsig & _ & _ & Htype & Hnil).
    apply readBody_spec in Hok. destruct Hok as (_ & _ & ->).
    apply isSubscriptionEvent_spec in Htype. eauto. }
  unfold serve, outcome.
  destruct (PostWebhook_run sdk h r db) as [err Hr | payload err Hr Hsig
    | payload event Hr Hsig Htype | payload event Hr Hsig Htype Hdata
    | payload event data err Hr Hsig Htype Hdata Hparse
    | payload event data sub Hr Hsig Htype Hdata Hparse Hcustomer
    | payload event data sub reference err Hr Hsig Htype Hdata Hparse Hcustomer Hget
    | payload event data sub reference cust Hr Hsig Htype Hdata Hparse Hcustomer Hget];
    cbn [fst snd w trace users http.Status http.Location respond http.fresh];
    (split; [reflexivity |]);
    (split;
     [ first [ left; split; [reflexivity | auto] | right; split; reflexivity ] |]);
    (split;
     [ split;
       [ first [ discriminate | intros _; eauto ]
       | first [ reflexivity | intros Hbad; exfalso; eapply Hread; eassumption ] ] |]).
  1: { split; [discriminate |].
       intros (event & _ & Hnone & Hle & _). exfalso.
       assert (Hok : readBody r = Ok (http.data (Body r)))
         by (apply readBody_spec; auto).
       rewrite Hok in Hr. discriminate Hr. }
  all: split;
    [ first
        [ discriminate
        | intros _; pose proof Hr as Hspec; apply readBody_spec in Hspec;
          destruct Hspec as (Hnone & Hle & ->);
          apply isSubscriptionEvent_spec in Htype;
          exists event; repeat split; eauto 8 ]
    | first
        [ reflexivity
        | intros Hex; exfalso;
          destruct (Hpanic _ Hr Hex) as (event' & Hsig' & Htype' & Hnil);
          same_call;
          destruct Hnil as [Hnil | (data' & sub' & Hd & Hp & Hc)]; same_call ] ].
Qed.

(** X2. A body of at most 65536 bytes whose transfer does not fail always
    reaches the signature verification: the first thing [PostWebhook] does
    is verify the whole body against the [Stripe-Signature] header and the
    configured endpoint secret, tolerating API version mismatches, and it
    does so once. *)
Theorem PostWebhook_within_cap_is_verified (sdk : Backend) (h : SubscriptionHandler)
    (r : Request) (db : Store) :
  http.failure (Body r) = None ->
  Z.of_nat (length (http.data (Body r))) <= 65536 ->
  hd_error (trace (serve (PostWebhook sdk h r) db)) =
    Some (EConstructEvent (http.data (Body r))
            (Header_Get (Header r) "Stripe-Signature")
            (conf.StripeEndpointSecret (conf.Subscriptions (config h)))
            {| stripe.ConstructEventOptions.IgnoreAPIVersionMismatch := true |})
  /\ count is_verification (trace (serve (PostWebhook sdk h r) db)) = 1%nat
  /\ http.Status (w (serve (PostWebhook sdk h r) db)) <> Some 503.
Proof.
  intros Hnone Hle.
  assert (Hok : readBody r = Ok (http.data (Body r)))
    by (apply readBody_spec; auto).
  unfold serve.
  destruct (PostWebhook_run sdk h r db) as [err Hread | payload err Hread
    | payload event Hread | payload event Hread | payload event data err Hread
    | payload event data sub Hread | payload event data sub reference err Hread
    | payload event data sub reference cust Hread];
    rewrite Hok in Hread; try discriminate Hread;
    injection Hread as <-; simpl; repeat split; discriminate.
Qed.

(** X3. The payload handed to the signature verification is never a
    truncated or partly transferred body: whenever [PostWebhook] verifies,
    it verifies the complete body, which has at most 65536 bytes, with the
    request's [Stripe-Signature] header and the configured secret. *)
Theorem PostWebhook_verifies_whole_body (sdk : Backend) (h : SubscriptionHandler)
    (r : Request) (db : Store) (payload : bytes) (sigHeader secret : string)
    (opts : stripe.ConstructEventOptions.t) :
  In (EConstructEvent payload sigHeader secret opts)
     (trace (serve (PostWebhook sdk h r) db)) ->
  payload = http.data (Body r)
  /\ http.failure (Body r) = None
  /\ Z.of_nat (length payload) <= 65536
  /\ sigHeader = Header_Get (Header r) "Stripe-Signature"
  /\ secret = conf.StripeEndpointSecret (conf.Subscriptions (config h))
  /\ stripe.ConstructEventOptions.IgnoreAPIVersionMismatch opts = true.
Proof.
  intros Hrun.
  destruct (verification_reached _ _ _ _ _ _ _ _ Hrun) as (Hread & -> & -> & ->).
  apply readBody_spec in Hread. destruct Hread as (Hnone & Hle & ->).
  repeat split; assumption.
Qed.

(** X4. When the transfer of a body within the size cap breaks off,
    [PostWebhook] answers 503, logs the transfer error and verifies
    nothing. *)
Theorem PostWebhook_broken_transfer (sdk : Backend) (h : SubscriptionHandler)
    (r : Request) (db : Store) (err : error) :
  http.failure (Body r) = Some err ->
  Z.of_nat (length (http.data (Body r))) <= 65536 ->
  http.Status (w (serve (PostWebhook sdk h r) db)) = Some 503
  /\ trace (serve (PostWebhook sdk h r) db) =
       [ELog RequestLog Error "error in stripe webhook request: %v" [err]]
  /\ never is_verification (trace (serve (PostWebhook sdk h r) db)).
Proof.
  intros Hfail Hle.
  assert (Hread : readBody r = Err err).
  { unfold readBody, http.MaxBytesReader, ioutil.ReadAll.
    apply Z.ltb_ge in Hle. rewrite Hle, Hfail. reflexivity. }
  rewrite (PostWebhook_unread sdk h r db err Hread). repeat split.
Qed.

(** X5. [PostWebhook] fetches a customer from the provider only for a
    request whose signature was verified, whose event has one of the three
    subscription types and has data, and whose payload parsed into a
    subscription that names a customer; and then it fetches that customer. *)
Theorem PostWebhook_fetch_needs_verified_event (sdk : Backend)
    (h : SubscriptionHandler) (r : Request) (db : Store) (id : string) :
  In (ECustomerGet id) (trace (serve (PostWebhook sdk h r) db)) ->
  exists event data subscription reference,
    webhook_ConstructEventWithOptions sdk (http.data (Body r))
      (Header_Get (Header r) "Stripe-Signature")
      (conf.StripeEndpointSecret (conf.Subscriptions (config h)))
      {| stripe.ConstructEventOptions.IgnoreAPIVersionMismatch := true |} = Ok event
    /\ isSubscriptionEvent (stripe.Event.Type_ event) = true
    /\ stripe.Event.Data event = Some data
    /\ json_Unmarshal sdk (stripe.EventData.Raw data) = Ok subscription
    /\ stripe.Subscription.Customer subscription = Some reference
    /\ id = stripe.Customer.ID reference.
Proof.
  unfold serve. intros Hin.
  destruct (PostWebhook_run sdk h r db) as [err Hread | payload err Hread Hsig
    | payload event Hread Hsig Htype | payload event Hread Hsig Htype Hdata
    | payload event data err Hread Hsig Htype Hdata Hparse
    | payload event data sub Hread Hsig Htype Hdata Hparse Hcustomer
    | payload event data sub reference err Hread Hsig Htype Hdata Hparse Hcustomer Hget
    | payload event data sub reference cust Hread Hsig Htype Hdata Hparse Hcustomer Hget];
    simpl in Hin;
    repeat (destruct Hin as [Hin | Hin]; try discriminate Hin);
    try contradiction;
    injection Hin as <-;
    apply readBody_spec in Hread; destruct Hread as (_ & _ & ->);
    exists event, data, sub, reference; auto 8.
Qed.

(** X6. Serving a webhook takes at most one call of an SDK function that
    reaches out to the provider, and that call is a customer fetch:
    [PostWebhook] never calls the customer search and never asks for a
    checkout or portal session.  (Calls are counted, not the HTTP requests
    the SDK makes for a call.) *)
Theorem PostWebhook_provider_calls (sdk : Backend) (h : SubscriptionHandler)
    (r : Request) (db : Store) :
  filter is_provider_call (trace (serve (PostWebhook sdk h r) db)) = []
  \/ exists id,
       filter is_provider_call (trace (serve (PostWebhook sdk h r) db))
       = [ECustomerGet id].
Proof.
  unfold serve. destruct (PostWebhook_run sdk h r db); simpl; eauto.
Qed.

(** X7. [handleParseSubscription], called in any state, ends in one of
    three ways.  It returns the parsed subscription and the fetched
    customer and leaves the response alone.  Or it returns the error of
    the step that failed (parsing first, then the fetch) and writes status
    400.  Or it panics, when the event has no data or the parsed
    subscription names no customer, and leaves the response alone.  In all
    three it only adds to the trace and leaves the persisted users as they
    were. *)
Theorem handleParseSubscription_result (sdk : Backend) (h : SubscriptionHandler)
    (r : Request) (event : stripe.Event.t) (s : World) :
  users (snd (handleParseSubscription sdk h r event s)) = users s
  /\ (exists added,
        trace (snd (handleParseSubscription sdk h r event s)) = (trace s ++ added)%list)
  /\ match fst (handleParseSubscription sdk h r event s) with
     | Returned (Ok (subscription, customer)) =>
         (exists data reference,
            stripe.Event.Data event = Some data
            /\ json_Unmarshal sdk (stripe.EventData.Raw data) = Ok subscription
            /\ stripe.Subscription.Customer subscription = Some reference
            /\ stripeCustomer_Get sdk (stripe.Customer.ID reference) = Ok customer)
         /\ w (snd (handleParseSubscription sdk h r event s)) = w s
     | Returned (Err err) =>
         (exists data,
            stripe.Event.Data event = Some data
            /\ (json_Unmarshal sdk (stripe.EventData.Raw data) = Err err
                \/ exists subscription reference,
                     json_Unmarshal sdk (stripe.EventData.Raw data) = Ok subscription
                     /\ stripe.Subscription.Customer subscription = Some reference
                     /\ stripeCustomer_Get sdk (stripe.Customer.ID reference) = Err err))
         /\ w (snd (handleParseSubscription sdk h r event s))
            = http.WriteHeader (w s) http.StatusBadRequest
     | Panicked reason =>
         reason = nilDereference
         /\ (stripe.Event.Data event = None
             \/ exists data subscription,
                  stripe.Event.Data event = Some data
                  /\ json_Unmarshal sdk (stripe.EventData.Raw data) = Ok subscription
                  /\ stripe.Subscription.Customer subscription = None)
         /\ w (snd (handleParseSubscription sdk h r event s)) = w s
     end.
Proof.
  unfold handleParseSubscription, deref, Unmarshal, Customer_Get, Log_Request_Error,
    logbuch.Info, WriteHeader, panic, bind, emit, ret.
  destruct (stripe.Event.Data event) as [data |] eqn:Hdata; cbn.
  2: { split; [reflexivity | split; [| auto]].
       exists []. symmetry. apply app_nil_r. }
  destruct (json_Unmarshal sdk (stripe.EventData.Raw data)) as [sub | err] eqn:Hparse;
    cbn.
  2: { split; [reflexivity | split; [| eauto]].
       eexists. rewrite <- ?app_assoc. reflexivity. }
  destruct (stripe.Subscription.Customer sub) as [reference |] eqn:Hcustomer; cbn.
  2: { split; [reflexivity | split; [| eauto 8]].
       eexists. reflexivity. }
  destruct (stripeCustomer_Get sdk (stripe.Customer.ID reference))
    as [cust | err] eqn:Hget; cbn.
  - split; [reflexivity | split; [| eauto 8]].
    eexists. rewrite <- ?app_assoc. reflexivity.
  - split; [reflexivity | split; [| eauto 10]].
    eexists. rewrite <- ?app_assoc. reflexivity.
Qed.

(** ** Checkout and portal, all requests *)

Ltac checkout_cases sdk h r db :=
  let Hemail := fresh "Hemail" in
  let Hform := fresh "Hform" in
  let Hnew := fresh "Hnew" in
  let session := fresh "session" in
  let err := fresh "err" in
  destruct (String.eqb_spec (models.Email (Principal r)) EmptyString)
    as [Hemail | Hemail];
  [ rewrite (PostCheckout_no_email sdk h r db Hemail)
  | destruct (ParseForm r) as [err |] eqn:Hform;
    [ rewrite (PostCheckout_bad_form sdk h r db err Hemail Hform)
    | destruct (stripeCheckoutSession_New sdk (checkoutParams h (Principal r)))
        as [session | err] eqn:Hnew;
      [ rewrite (PostCheckout_session sdk h r db session Hemail Hform Hnew)
      | rewrite (PostCheckout_provider_error sdk h r db err Hemail Hform Hnew) ] ] ].

(** X8. [PostCheckout] answers every request with a redirect: with 303 to
    the URL of the session the provider created, which takes a principal
    with e-mail address, a form that parses and a provider that creates the
    session; in every other case with 302 to the settings page with an
    [error] parameter. *)
Theorem PostCheckout_always_redirects (sdk : Backend) (h : SubscriptionHandler)
    (r : Request) (db : Store) :
  (exists session,
      models.Email (Principal r) <> EmptyString
      /\ ParseForm r = None
      /\ stripeCheckoutSession_New sdk (checkoutParams h (Principal r)) = Ok session
      /\ redirected (serve (PostCheckout sdk h r) db) 303
           (stripe.CheckoutSession.URL session))
  \/ (exists msg,
        redirected (serve (PostCheckout sdk h r) db) 302
          (BasePath h ++ "/settings?error=" ++ msg ++ "#subscription")%string
        /\ (models.Email (Principal r) = EmptyString
            \/ ParseForm r <> None
            \/ exists err,
                 stripeCheckoutSession_New sdk (checkoutParams h (Principal r))
                 = Err err)).
Proof.
  checkout_cases sdk h r db; unfold redirected.
  - right. exists "missing e-mail address". split; [split; reflexivity | auto].
  - right. exists "missing form values".
    split; [split; reflexivity | right; left; discriminate].
  - left. exists session. repeat split; auto.
  - right. exists "something went wrong". split; [split; reflexivity | eauto].
Qed.

(** X9. When the provider fails to create the checkout session, the error
    goes to the log and nowhere else: the browser is redirected (302) to
    the settings page with the fixed message [something went wrong]. *)
Theorem PostCheckout_provider_failure (sdk : Backend) (h : SubscriptionHandler)
    (r : Request) (db : Store) (err : error) :
  models.Email (Principal r) <> EmptyString ->
  ParseForm r = None ->
  stripeCheckoutSession_New sdk (checkoutParams h (Principal r)) = Err err ->
  redirected (serve (PostCheckout sdk h r) db) 302
    (BasePath h ++ "/settings?error=something went wrong#subscription")%string
  /\ filter is_log (trace (serve (PostCheckout sdk h r) db)) =
       [ELog RequestLog Error "failed to create stripe checkout session: %v" [err]].
Proof.
  intros Hemail Hform Hnew.
  rewrite (PostCheckout_provider_error sdk h r db err Hemail Hform Hnew).
  unfold redirected; simpl. repeat split.
  unfold devReload. destruct (conf.IsDev (config h)); reflexivity.
Qed.

(** X10. A checkout takes at most one call of an SDK function that
    reaches out to the provider: the creation of a checkout session.  It
    is called exactly when the principal has an e-mail address and the
    form parses, and it asks for one unit of the configured price in
    subscription mode, with the principal's e-mail address as customer
    e-mail and as client reference.  (Calls are counted, not the HTTP
    requests the SDK makes for a call.) *)
Theorem PostCheckout_provider_calls (sdk : Backend) (h : SubscriptionHandler)
    (r : Request) (db : Store) :
  (filter is_provider_call (trace (serve (PostCheckout sdk h r) db)) = []
   /\ (models.Email (Principal r) = EmptyString \/ ParseForm r <> None))
  \/ (exists params,
        filter is_provider_call (trace (serve (PostCheckout sdk h r) db))
          = [ECheckoutSessionNew params]
        /\ models.Email (Principal r) <> EmptyString
        /\ ParseForm r = None
        /\ stripe.CheckoutSessionParams.Mode params = "subscription"
        /\ stripe.CheckoutSessionParams.LineItems params =
             [ {| stripe.CheckoutSessionLineItemParams.Price :=
                    conf.StandardPriceId (conf.Subscriptions (config h));
                  stripe.CheckoutSessionLineItemParams.Quantity := 1 |} ]
        /\ stripe.CheckoutSessionParams.CustomerEmail params = models.Email (Principal r)
        /\ stripe.CheckoutSessionParams.ClientReferenceID params
           = models.Email (Principal r)).
Proof.
  checkout_cases sdk h r db; simpl trace.
  - left. split; [| auto].
    rewrite <- (app_nil_r (devReload h)). apply filter_devReload. reflexivity.
  - left. split; [| right; discriminate].
    rewrite <- (app_nil_r (devReload h)). apply filter_devReload. reflexivity.
  - right. exists (checkoutParams h (Principal r)).
    rewrite filter_devReload by reflexivity. repeat split; assumption.
  - right. exists (checkoutParams h (Principal r)).
    rewrite filter_devReload by reflexivity. repeat split; assumption.
Qed.

Ltac portal_cases sdk h r db :=
  let Hemail := fresh "Hemail" in
  let Herr := fresh "Herr" in
  let Hitems := fresh "Hitems" in
  let Hnew := fresh "Hnew" in
  let customer := fresh "customer" in
  let others := fresh "others" in
  let session := fresh "session" in
  let err := fresh "err" in
  destruct (String.eqb_spec (models.Email (Principal r)) EmptyString)
    as [Hemail | Hemail];
  [ rewrite (PostPortal_no_email sdk h r db Hemail)
  | destruct (stripe.CustomerSearchIter.Err_
                (stripeCustomer_Search sdk (emailQuery (models.Email (Principal r)))))
      as [err |] eqn:Herr;
    [ rewrite (PostPortal_search_failed sdk h r db err Hemail Herr)
    | destruct (stripe.CustomerSearchIter.items
                  (stripeCustomer_Search sdk (emailQuery (models.Email (Principal r)))))
        as [| customer others] eqn:Hitems;
      [ rewrite (PostPortal_no_match sdk h r db Hemail Herr Hitems)
      | destruct (stripePortalSession_New sdk (portalParams h customer))
          as [session | err] eqn:Hnew;
        [ rewrite (PostPortal_session sdk h r db customer others session
                     Hemail Herr Hitems Hnew)
        | rewrite (PostPortal_provider_error sdk h r db customer others err
                     Hemail Herr Hitems Hnew) ] ] ] ].

(** X11. [PostPortal] answers every request with a redirect: with 303 to
    the URL of the portal session the provider created for the first
    customer found, and in every other case with 302 to the settings page
    with one of two fixed error messages. *)
Theorem PostPortal_always_redirects (sdk : Backend) (h : SubscriptionHandler)
    (r : Request) (db : Store) :
  (exists customer others session,
      models.Email (Principal r) <> EmptyString
      /\ stripeCustomer_Search sdk
           {| stripe.CustomerSearchParams.Query :=
                ("email:" ++ dquote ++ models.Email (Principal r) ++ dquote)%string |}
         = {| stripe.CustomerSearchIter.Err_ := None;
              stripe.CustomerSearchIter.items := customer :: others |}
      /\ stripePortalSession_New sdk
           {| stripe.BillingPortalSessionParams.Customer := stripe.Customer.ID customer;
              stripe.BillingPortalSessionParams.ReturnURL := PublicUrl h |}
         = Ok session
      /\ redirected (serve (PostPortal sdk h r) db) 303
           (stripe.BillingPortalSession.URL session))
  \/ redirected (serve (PostPortal sdk h r) db) 302
       (BasePath h
        ++ "/settings?error=no subscription found with your e-mail address, please contact us!#subscription")%string
  \/ redirected (serve (PostPortal sdk h r) db) 302
       (BasePath h ++ "/settings?error=something went wrong#subscription")%string.
Proof.
  portal_cases sdk h r db; unfold redirected.
  - right; left. split; reflexivity.
  - right; left. split; reflexivity.
  - right; left. split; reflexivity.
  - left. exists customer, others, session. repeat split; auto.
    fold (emailQuery (models.Email (Principal r))).
    destruct (stripeCustomer_Search sdk (emailQuery (models.Email (Principal r)))).
    simpl in *. subst. reflexivity.
  - right; right. split; reflexivity.
Qed.

(** X12. The calls of SDK functions that reach out to the provider are, in
    [PostPortal]: none, or one call of the customer search, or one call of
    the customer search followed by one call that creates a portal
    session.  A portal session is never asked for without the search
    before it, and it is asked for the first customer the search yields,
    with the public URL as return URL.  (Calls are counted, not the HTTP
    requests the SDK makes for a call or while the result is read.) *)
Theorem PostPortal_provider_calls (sdk : Backend) (h : SubscriptionHandler)
    (r : Request) (db : Store) :
  (filter is_provider_call (trace (serve (PostPortal sdk h r) db)) = []
   /\ models.Email (Principal r) = EmptyString)
  \/ (filter is_provider_call (trace (serve (PostPortal sdk h r) db))
        = [ECustomerSearch (emailQuery (models.Email (Principal r)))]
      /\ (stripe.CustomerSearchIter.Err_
            (stripeCustomer_Search sdk (emailQuery (models.Email (Principal r)))) <> None
          \/ stripe.CustomerSearchIter.items
               (stripeCustomer_Search sdk (emailQuery (models.Email (Principal r)))) = []))
  \/ (exists customer,
        hd_error (stripe.CustomerSearchIter.items
                    (stripeCustomer_Search sdk (emailQuery (models.Email (Principal r)))))
          = Some customer
        /\ filter is_provider_call (trace (serve (PostPortal sdk h r) db))
           = [ECustomerSearch (emailQuery (models.Email (Principal r)));
              EPortalSessionNew
                {| stripe.BillingPortalSessionParams.Customer := stripe.Customer.ID customer;
                   stripe.BillingPortalSessionParams.ReturnURL :=
                     conf.PublicUrl (conf.Server (config h)) |}]).
Proof.
  portal_cases sdk h r db; simpl trace.
  - left. split; [| assumption].
    rewrite <- (app_nil_r (devReload h)). apply filter_devReload. reflexivity.
  - right; left. rewrite filter_devReload by reflexivity.
    split; [reflexivity | left; discriminate].
  - right; left. rewrite filter_devReload by reflexivity.
    split; [reflexivity | right; reflexivity].
  - right; right. exists customer. rewrite filter_devReload by reflexivity.
    split; reflexivity.
  - right; right. exists customer. rewrite filter_devReload by reflexivity.
    split; reflexivity.
Qed.

(** X13. When the provider fails to create the portal session, the error
    goes to the log and nowhere else: the browser is redirected (302) to
    the settings page with the fixed message [something went wrong]. *)
Theorem PostPortal_provider_failure (sdk : Backend) (h : SubscriptionHandler)
    (r : Request) (db : Store) (customer : stripe.Customer.t)
    (others : list stripe.Customer.t) (err : error) :
  models.Email (Principal r) <> EmptyString ->
  stripeCustomer_Search sdk (emailQuery (models.Email (Principal r)))
    = {| stripe.CustomerSearchIter.Err_ := None;
         stripe.CustomerSearchIter.items := customer :: others |} ->
  stripePortalSession_New sdk (portalParams h customer) = Err err ->
  redirected (serve (PostPortal sdk h r) db) 302
    (BasePath h ++ "/settings?error=something went wrong#subscription")%string
  /\ filter is_log (trace (serve (PostPortal sdk h r) db)) =
       [ELog RequestLog Error "failed to create stripe portal session: %v" [err]].
Proof.
  intros Hemail Hsearch Hnew.
  assert (Herr : stripe.CustomerSearchIter.Err_
                   (stripeCustomer_Search sdk (emailQuery (models.Email (Principal r))))
                 = None) by (rewrite Hsearch; reflexivity).
  assert (Hitems : stripe.CustomerSearchIter.items
                     (stripeCustomer_Search sdk (emailQuery (models.Email (Principal r))))
                   = customer :: others) by (rewrite Hsearch; reflexivity).
  rewrite (PostPortal_provider_error sdk h r db customer others err
             Hemail Herr Hitems Hnew).
  unfold redirected; simpl. repeat split.
  unfold devReload. destruct (conf.IsDev (config h)); reflexivity.
Qed.

(** X14. The templates are reloaded by [PostCheckout] and [PostPortal]
    only, once per request and before anything else, and only on a
    development instance; [PostWebhook] never reloads them. *)
Theorem templates_reloaded_in_dev_only (sdk : Backend) (h : SubscriptionHandler)
    (r : Request) (db : Store) :
  (exists rest,
      trace (serve (PostCheckout sdk h r) db)
        = ((if conf.IsDev (config h) then [ELoadTemplates] else []) ++ rest)%list
      /\ never is_reload rest)
  /\ (exists rest,
        trace (serve (PostPortal sdk h r) db)
          = ((if conf.IsDev (config h) then [ELoadTemplates] else []) ++ rest)%list
        /\ never is_reload rest)
  /\ never is_reload (trace (serve (PostWebhook sdk h r) db)).
Proof.
  split; [| split].
  - checkout_cases sdk h r db; simpl trace; unfold devReload;
      first [ eexists; split; [reflexivity | reflexivity]
            | exists []; split; [symmetry; apply app_nil_r | reflexivity] ].
  - portal_cases sdk h r db; simpl trace; unfold devReload;
      first [ eexists; split; [reflexivity | reflexivity]
            | exists []; split; [symmetry; apply app_nil_r | reflexivity] ].
  - unfold serve. destruct (PostWebhook_run sdk h r db); reflexivity.
Qed.

(** X15. [findStripeCustomerByEmail], called in any state, adds one search
    for the exact e-mail address to the trace and touches neither the
    response nor the persisted users.  It returns a customer exactly when
    the search did not fail and yielded one, and then the first; an error
    of the search wins over whatever the search yielded. *)
Theorem findStripeCustomerByEmail_result (sdk : Backend) (h : SubscriptionHandler)
    (email : string) (s : World) :
  trace (snd (findStripeCustomerByEmail sdk h email s))
    = (trace s ++
       [ECustomerSearch
          {| stripe.CustomerSearchParams.Query :=
               ("email:" ++ dquote ++ email ++ dquote)%string |}])%list
  /\ w (snd (findStripeCustomerByEmail sdk h email s)) = w s
  /\ users (snd (findStripeCustomerByEmail sdk h email s)) = users s
  /\ (forall customer,
        fst (findStripeCustomerByEmail sdk h email s) = Returned (Ok customer) <->
        stripe.CustomerSearchIter.Err_ (stripeCustomer_Search sdk (emailQuery email)) = None
        /\ hd_error (stripe.CustomerSearchIter.items
                       (stripeCustomer_Search sdk (emailQuery email))) = Some customer)
  /\ (forall err,
        stripe.CustomerSearchIter.Err_ (stripeCustomer_Search sdk (emailQuery email))
          = Some err ->
        fst (findStripeCustomerByEmail sdk h email s) = Returned (Err err))
  /\ (stripe.CustomerSearchIter.Err_ (stripeCustomer_Search sdk (emailQuery email)) = None ->
      stripe.CustomerSearchIter.items (stripeCustomer_Search sdk (emailQuery email)) = [] ->
      fst (findStripeCustomerByEmail sdk h email s)
        = Returned (Err "no customer found with given criteria")).
Proof.
  unfold findStripeCustomerByEmail, Customer_Search, bind, emit, ret.
  change (stripe.CustomerSearchParams.mk
            (fmt.Sprintf ("email:" ++ dquote ++ "%s" ++ dquote) [email]))
    with (emailQuery email).
  cbn -[emailQuery].
  destruct (stripe.CustomerSearchIter.Err_ (stripeCustomer_Search sdk (emailQuery email)))
    as [e |];
    [| destruct (stripe.CustomerSearchIter.items
                   (stripeCustomer_Search sdk (emailQuery email))) as [| c cs] ];
    simpl; repeat split; try discriminate; try tauto; try congruence.
  all: try (intros (H1 & H2); discriminate).
  all: try (intros H; injection H as <-; auto).
  all: try (intros (_ & H); injection H as <-; reflexivity).
Qed.

(** ** Routing *)

Lemma append_nil_r (a : string) : (a ++ EmptyString)%string = a.
Proof. induction a as [| c a IH]; simpl; [| rewrite IH]; reflexivity. Qed.

Lemma append_assoc (a b c : string) :
  ((a ++ b) ++ c)%string = (a ++ (b ++ c))%string.
Proof. induction a as [| x a IH]; simpl; [| rewrite IH]; reflexivity. Qed.

Lemma eqb_append_l (a b c : string) :
  String.eqb (a ++ b) (a ++ c) = String.eqb b c.
Proof.
  induction a as [| x a IH]; simpl; [reflexivity |].
  rewrite Ascii.eqb_refl. exact IH.
Qed.

(** The routes [RegisterRoutes] adds to a router with prefix [P] and
    middlewares [U]. *)
Lemma RegisterRoutes_routes (target : string) (h : SubscriptionHandler)
    (router : mux.Router) :
  conf.Enabled (conf.Subscriptions (config h)) = true ->
  mux.routes (RegisterRoutes target h router) =
  (mux.routes router ++
   [ mux.mkRoute (mux.prefix router ++ "/subscription/success") ["GET"]
       (mux.uses router) HGetCheckoutSuccess;
     mux.mkRoute (mux.prefix router ++ "/subscription/cancel") ["GET"]
       (mux.uses router) HGetCheckoutCancel;
     mux.mkRoute (mux.prefix router ++ "/subscription/webhook") ["POST"]
       (mux.uses router) HPostWebhook;
     mux.mkRoute (mux.prefix router ++ "/subscription/checkout") ["POST"]
       (mux.uses router ++ [AuthenticateMiddleware target]) HPostCheckout;
     mux.mkRoute (mux.prefix router ++ "/subscription/portal") ["POST"]
       (mux.uses router ++ [AuthenticateMiddleware target]) HPostPortal ])%list.
Proof.
  intros Henabled. unfold RegisterRoutes. rewrite Henabled.
  cbn [negb mux.leave mux.HandleFunc mux.Use mux.Subrouter mux.routes mux.prefix mux.uses].
  rewrite append_nil_r, !append_assoc, <- !app_assoc. reflexivity.
Qed.

Lemma matches_inv (method p path0 m0 : string) (mws : list Middleware)
    (f : HandlerFunc) :
  mux.matches method p (mux.mkRoute path0 [m0] mws f) = true ->
  p = path0 /\ method = m0.
Proof.
  unfold mux.matches; simpl. rewrite andb_true_iff, orb_false_r, !String.eqb_eq.
  intros [-> ->]. auto.
Qed.

(** X16. [RegisterRoutes] hands the router back with its own prefix and
    middlewares, and a request that was served before is still served by
    the same route.  With subscriptions disabled the router is not touched
    at all. *)
Theorem RegisterRoutes_keeps_router (target : string) (h : SubscriptionHandler)
    (router : mux.Router) :
  mux.prefix (RegisterRoutes target h router) = mux.prefix router
  /\ mux.uses (RegisterRoutes target h router) = mux.uses router
  /\ (forall method p rt,
        mux.Match router method p = Some rt ->
        mux.Match (RegisterRoutes target h router) method p = Some rt)
  /\ (conf.Enabled (conf.Subscriptions (config h)) = false ->
      RegisterRoutes target h router = router).
Proof.
  destruct (conf.Enabled (conf.Subscriptions (config h))) eqn:Henabled.
  - repeat split.
    + unfold RegisterRoutes. rewrite Henabled. reflexivity.
    + unfold RegisterRoutes. rewrite Henabled. reflexivity.
    + intros method p rt Hmatch. unfold mux.Match in *.
      rewrite (RegisterRoutes_routes target h router Henabled).
      induction (mux.routes router) as [| x xs IH]; [discriminate Hmatch |].
      simpl in *. destruct (mux.matches method p x); [exact Hmatch | auto].
    + discriminate.
  - unfold RegisterRoutes. rewrite Henabled. simpl. repeat split; auto.
Qed.

(** X17. On a router without routes, what [RegisterRoutes] serves is: GET
    on [/subscription/success] and [/subscription/cancel], POST on
    [/subscription/webhook], [/subscription/checkout] and
    [/subscription/portal], all under the prefix of the router and only
    with subscriptions enabled.  The checkout and portal routes get the
    authentication middleware added; the other three get none added. *)
Theorem RegisterRoutes_served (target : string) (h : SubscriptionHandler)
    (router : mux.Router) (method p : string) (rt : mux.Route) :
  mux.routes router = [] ->
  mux.Match (RegisterRoutes target h router) method p = Some rt ->
  conf.Enabled (conf.Subscriptions (config h)) = true
  /\ In (method, p, mux.handler rt)
        [ ("GET", mux.prefix router ++ "/subscription/success", HGetCheckoutSuccess);
          ("GET", mux.prefix router ++ "/subscription/cancel", HGetCheckoutCancel);
          ("POST", mux.prefix router ++ "/subscription/webhook", HPostWebhook);
          ("POST", mux.prefix router ++ "/subscription/checkout", HPostCheckout);
          ("POST", mux.prefix router ++ "/subscription/portal", HPostPortal) ]%string
  /\ mux.middlewares rt =
       (mux.uses router ++
        match mux.handler rt with
        | HPostCheckout | HPostPortal => [AuthenticateMiddleware target]
        | _ => []
        end)%list.
Proof.
  intros Hempty Hmatch.
  destruct (conf.Enabled (conf.Subscriptions (config h))) eqn:Henabled.
  2: { unfold RegisterRoutes in Hmatch. rewrite Henabled in Hmatch.
       cbn [negb] in Hmatch.
       unfold mux.Match in Hmatch. rewrite Hempty in Hmatch. discriminate Hmatch. }
  split; [reflexivity |].
  unfold mux.Match in Hmatch.
  rewrite (RegisterRoutes_routes target h router Henabled), Hempty in Hmatch.
  cbn [app find] in Hmatch.
  repeat match type of Hmatch with
         | (if mux.matches ?m ?q ?x then _ else _) = _ =>
             let E := fresh "E" in
             destruct (mux.matches m q x) eqn:E;
             [ apply matches_inv in E; destruct E as [-> ->];
               injection Hmatch as <-; simpl;
               split; [auto 10 | rewrite ?app_nil_r; reflexivity]
             | ]
         end.
  discriminate Hmatch.
Qed.

(** X18. With subscriptions enabled and no other route in the way, each of
    the five routes is served, by the handler registered for it: the paths
    do not shadow one another. *)
Theorem RegisterRoutes_serves_all (target : string) (h : SubscriptionHandler)
    (router : mux.Router) :
  conf.Enabled (conf.Subscriptions (config h)) = true ->
  mux.routes router = [] ->
  option_map mux.handler
    (mux.Match (RegisterRoutes target h router) "GET"
       (mux.prefix router ++ "/subscription/success")) = Some HGetCheckoutSuccess
  /\ option_map mux.handler
       (mux.Match (RegisterRoutes target h router) "GET"
          (mux.prefix router ++ "/subscription/cancel")) = Some HGetCheckoutCancel
  /\ option_map mux.handler
       (mux.Match (RegisterRoutes target h router) "POST"
          (mux.prefix router ++ "/subscription/webhook")) = Some HPostWebhook
  /\ option_map mux.handler
       (mux.Match (RegisterRoutes target h router) "POST"
          (mux.prefix router ++ "/subscription/checkout")) = Some HPostCheckout
  /\ option_map mux.handler
       (mux.Match (RegisterRoutes target h router) "POST"
          (mux.prefix router ++ "/subscription/portal")) = Some HPostPortal.
Proof.
  intros Henabled Hempty. unfold mux.Match.
  rewrite (RegisterRoutes_routes target h router Henabled), Hempty.
  cbn [app find]; unfold mux.matches; cbn [mux.path mux.methods existsb].
  rewrite !eqb_append_l. repeat split.
Qed.

(** X19. The callback URLs [PostCheckout] hands to the provider lead back
    to this handler: on a router mounted under the base path, a GET of the
    path of the success URL is served by [GetCheckoutSuccess] and a GET of
    the path of the cancel URL by [GetCheckoutCancel], both behind no
    other middleware than those of the router, and both answer with a
    redirect (302) to the settings page. *)
Theorem checkout_callbacks_are_served (sdk : Backend) (target : string)
    (h : SubscriptionHandler) (router : mux.Router) (user : models.User)
    (r : Request) (db : Store) :
  conf.Enabled (conf.Subscriptions (config h)) = true ->
  mux.prefix router = BasePath h ->
  mux.routes router = [] ->
  exists successPath cancelPath success cancel,
    stripe.CheckoutSessionParams.SuccessURL (checkoutParams h user)
      = (PublicUrl h ++ successPath)%string
    /\ stripe.CheckoutSessionParams.CancelURL (checkoutParams h user)
       = (PublicUrl h ++ cancelPath)%string
    /\ mux.Match (RegisterRoutes target h router) "GET" successPath = Some success
    /\ mux.Match (RegisterRoutes target h router) "GET" cancelPath = Some cancel
    /\ mux.handler success = HGetCheckoutSuccess
    /\ mux.handler cancel = HGetCheckoutCancel
    /\ mux.middlewares success = mux.uses router
    /\ mux.middlewares cancel = mux.uses router
    /\ redirected (serve (handlerOf sdk h (mux.handler success) r) db) 302
         (BasePath h
          ++ "/settings?success=you have successfully subscribed to Wakapi!#subscription")%string
    /\ redirected (serve (handlerOf sdk h (mux.handler cancel) r) db) 302
         (BasePath h ++ "/settings#subscription")%string.
Proof.
  intros Henabled Hprefix Hempty.
  exists (BasePath h ++ "/subscription/success")%string,
         (BasePath h ++ "/subscription/cancel")%string,
         (mux.mkRoute (BasePath h ++ "/subscription/success") ["GET"]
            (mux.uses router) HGetCheckoutSuccess),
         (mux.mkRoute (BasePath h ++ "/subscription/cancel") ["GET"]
            (mux.uses router) HGetCheckoutCancel).
  unfold mux.Match.
  rewrite (RegisterRoutes_routes target h router Henabled), Hempty, Hprefix.
  cbn [app find]; unfold mux.matches; cbn [mux.path mux.methods existsb].
  rewrite !eqb_append_l, !String.eqb_refl.
  repeat split.
Qed.

(** X20. Unless it panics, [PostWebhook] never answers silently: a request
    it answers leaves one or two log lines, with exactly one error line of
    the request logger when the answer is not 200 and none when it is.  A
    run that ends in a panic leaves no log line of the handler at all. *)
Theorem PostWebhook_logging (sdk : Backend) (h : SubscriptionHandler)
    (r : Request) (db : Store) :
  match outcome (PostWebhook sdk h r) db with
  | Returned _ =>
      (1 <= count is_log (trace (serve (PostWebhook sdk h r) db)) <= 2)%nat
      /\ count is_error_log (trace (serve (PostWebhook sdk h r) db)) =
           (if Z.eqb (match http.Status (w (serve (PostWebhook sdk h r) db)) with
                      | Some code => code
                      | None => 0
                      end) 200
            then 0 else 1)%nat
  | Panicked _ =>
      count is_log (trace (serve (PostWebhook sdk h r) db)) = 0%nat
  end.
Proof.
  unfold serve, outcome.
  destruct (PostWebhook_run sdk h r db); simpl;
    first [ reflexivity | split; [split; repeat constructor | reflexivity] ].
Qed.

(** X21. What a verified event gets.  An event of another type than the
    three subscription types: 200.  An event of one of the three types:
    a panic and no status when it has no data; 400 when its payload does
    not parse; a panic and no status when the parsed subscription names no
    customer; 400 when the fetch of that customer fails; 200 when it
    succeeds. *)
Theorem PostWebhook_verified_outcome (sdk : Backend) (h : SubscriptionHandler)
    (r : Request) (db : Store) (payload : bytes) (sigHeader secret : string)
    (opts : stripe.ConstructEventOptions.t) (event : stripe.Event.t) :
  In (EConstructEvent payload sigHeader secret opts)
     (trace (serve (PostWebhook sdk h r) db)) ->
  webhook_ConstructEventWithOptions sdk payload sigHeader secret opts = Ok event ->
  (stripe.Event.Type_ event <> "customer.subscription.created" ->
   stripe.Event.Type_ event <> "customer.subscription.updated" ->
   stripe.Event.Type_ event <> "customer.subscription.deleted" ->
   outcome (PostWebhook sdk h r) db = Returned tt
   /\ http.Status (w (serve (PostWebhook sdk h r) db)) = Some 200)
  /\ (stripe.Event.Type_ event = "customer.subscription.created"
      \/ stripe.Event.Type_ event = "customer.subscription.updated"
      \/ stripe.Event.Type_ event = "customer.subscription.deleted" ->
      match stripe.Event.Data event with
      | None =>
          outcome (PostWebhook sdk h r) db = Panicked nilDereference
          /\ http.Status (w (serve (PostWebhook sdk h r) db)) = None
      | Some data =>
          match json_Unmarshal sdk (stripe.EventData.Raw data) with
          | Err _ =>
              outcome (PostWebhook sdk h r) db = Returned tt
              /\ http.Status (w (serve (PostWebhook sdk h r) db)) = Some 400
          | Ok subscription =>
              match stripe.Subscription.Customer subscription with
              | None =>
                  outcome (PostWebhook sdk h r) db = Panicked nilDereference
                  /\ http.Status (w (serve (PostWebhook sdk h r) db)) = None
              | Some reference =>
                  match stripeCustomer_Get sdk (stripe.Customer.ID reference) with
                  | Err _ =>
                      outcome (PostWebhook sdk h r) db = Returned tt
                      /\ http.Status (w (serve (PostWebhook sdk h r) db)) = Some 400
                  | Ok _ =>
                      outcome (PostWebhook sdk h r) db = Returned tt
                      /\ http.Status (w (serve (PostWebhook sdk h r) db)) = Some 200
                  end
              end
          end
      end).
Proof.
  intros Hrun Hsig.
  destruct (verification_reached _ _ _ _ _ _ _ _ Hrun) as (Hread & -> & -> & ->).
  clear Hrun. split.
  - intros Hcreated Hupdated Hdeleted.
    assert (Htype : isSubscriptionEvent (stripe.Event.Type_ event) = false).
    { destruct (isSubscriptionEvent (stripe.Event.Type_ event)) eqn:E; [| reflexivity].
      apply isSubscriptionEvent_spec in E. tauto. }
    unfold serve, outcome.
    destruct (PostWebhook_run sdk h r db); same_call; try discriminate.
    split; reflexivity.
  - intros Htype. apply isSubscriptionEvent_spec in Htype.
    unfold serve, outcome.
    destruct (PostWebhook_run sdk h r db); same_call; try discriminate;
      repeat match goal with
             | H : ?x = _ |- context [match ?x with _ => _ end] => rewrite H
             end;
      split; reflexivity.
Qed.

(** ** Concrete runs of the further properties *)

Lemma PostWebhook_within_cap_is_verified_run :
  count is_verification
    (trace (serve (PostWebhook rejecting rootHandler
                     (sampleRequest alice fullBody None)) []))
  = 1%nat.
Proof.
  refine (proj1 (proj2 (PostWebhook_within_cap_is_verified rejecting rootHandler
                          (sampleRequest alice fullBody None) [] _ _))).
  - reflexivity.
  - vm_compute. discriminate.
Defined.

Lemma PostWebhook_verifies_whole_body_run :
  smallBody = http.data (Body (sampleRequest alice smallBody None))
  /\ Z.of_nat (length smallBody) <= 65536.
Proof.
  destruct (PostWebhook_verifies_whole_body rejecting rootHandler
              (sampleRequest alice smallBody None) []
              smallBody "t=1,v1=5257a869" "whsec_1" webhookOptions)
    as (Hwhole & _ & Hcap & _).
  - simpl. left. reflexivity.
  - split; [exact Hwhole | exact Hcap].
Defined.

Lemma PostWebhook_broken_transfer_run :
  http.Status (w (serve (PostWebhook rejecting rootHandler brokenRequest) []))
  = Some 503.
Proof.
  refine (proj1 (PostWebhook_broken_transfer rejecting rootHandler brokenRequest []
                   "unexpected EOF" _ _)).
  - reflexivity.
  - vm_compute. discriminate.
Defined.

Lemma PostWebhook_fetch_needs_verified_event_run :
  exists event data subscription reference,
    webhook_ConstructEventWithOptions (accepting "customer.subscription.created")
      smallBody "t=1,v1=5257a869" "whsec_1" webhookOptions = Ok event
    /\ isSubscriptionEvent (stripe.Event.Type_ event) = true
    /\ stripe.Event.Data event = Some data
    /\ json_Unmarshal (accepting "customer.subscription.created")
         (stripe.EventData.Raw data) = Ok subscription
    /\ stripe.Subscription.Customer subscription = Some reference
    /\ "cus_1" = stripe.Customer.ID reference.
Proof.
  refine (PostWebhook_fetch_needs_verified_event
            (accepting "customer.subscription.created") rootHandler
            (sampleRequest alice smallBody None) [] "cus_1" _).
  simpl. right. right. left. reflexivity.
Defined.

Lemma PostCheckout_provider_failure_run :
  filter is_log
    (trace (serve (PostCheckout refusing prefixedHandler
                     (sampleRequest alice smallBody None)) []))
  = [ELog RequestLog Error "failed to create stripe checkout session: %v"
       ["card_declined"%string]].
Proof.
  refine (proj2 (PostCheckout_provider_failure refusing prefixedHandler
                   (sampleRequest alice smallBody None) [] "card_declined" _ _ _)).
  - discriminate.
  - reflexivity.
  - reflexivity.
Defined.

Lemma PostPortal_provider_failure_run :
  redirected (serve (PostPortal refusing prefixedHandler
                       (sampleRequest alice smallBody None)) [])
    302 "/wakapi/settings?error=something went wrong#subscription".
Proof.
  refine (proj1 (PostPortal_provider_failure refusing prefixedHandler
                   (sampleRequest alice smallBody None) [] cus1 [cus2]
                   "api_connection_error" _ _ _)).
  - discriminate.
  - reflexivity.
  - reflexivity.
Defined.

Lemma findStripeCustomerByEmail_result_run :
  fst (findStripeCustomerByEmail rejecting rootHandler "a@b.com" answered)
  = Returned (Err "no customer found with given criteria").
Proof.
  refine (proj2 (proj2 (proj2 (proj2 (proj2
            (findStripeCustomerByEmail_result rejecting rootHandler "a@b.com"
               answered))))) _ _).
  - reflexivity.
  - reflexivity.
Defined.

Lemma RegisterRoutes_keeps_router_run :
  option_map mux.handler
    (mux.Match (RegisterRoutes "/login" prefixedHandler busyRouter)
       "GET" "/wakapi/subscription/success")
  = Some HGetCheckoutCancel
  /\ RegisterRoutes "/login" disabledHandler busyRouter = busyRouter.
Proof.
  split.
  - rewrite (proj1 (proj2 (proj2
               (RegisterRoutes_keeps_router "/login" prefixedHandler busyRouter)))
               "GET" "/wakapi/subscription/success"
               (mux.mkRoute "/wakapi/subscription/success" ["GET"] []
                  HGetCheckoutCancel) eq_refl).
    reflexivity.
  - refine (proj2 (proj2 (proj2
              (RegisterRoutes_keeps_router "/login" disabledHandler busyRouter))) _).
    reflexivity.
Defined.

Lemma RegisterRoutes_served_run :
  mux.middlewares
    (mux.mkRoute "/wakapi/subscription/portal" ["POST"]
       [AuthenticateMiddleware "/login"] HPostPortal)
  = [AuthenticateMiddleware "/login"].
Proof.
  refine (proj2 (proj2 (RegisterRoutes_served "/login" prefixedHandler
                          (mounted prefixedHandler) "POST"
                          "/wakapi/subscription/portal"
                          (mux.mkRoute "/wakapi/subscription/portal" ["POST"]
                             [AuthenticateMiddleware "/login"] HPostPortal)
                          _ _))).
  - reflexivity.
  - reflexivity.
Defined.

Lemma RegisterRoutes_serves_all_run :
  option_map mux.handler
    (mux.Match (RegisterRoutes "/login" prefixedHandler (mounted prefixedHandler))
       "POST" "/wakapi/subscription/webhook")
  = Some HPostWebhook.
Proof.
  refine (proj1 (proj2 (proj2 (RegisterRoutes_serves_all "/login" prefixedHandler
                                 (mounted prefixedHandler) _ _)))).
  - reflexivity.
  - reflexivity.
Defined.

Lemma checkout_callbacks_are_served_run :
  exists successPath success,
    stripe.CheckoutSessionParams.SuccessURL (checkoutParams prefixedHandler alice)
      = ("https://x.test" ++ successPath)%string
    /\ mux.Match (RegisterRoutes "/login" prefixedHandler (mounted prefixedHandler))
         "GET" successPath = Some success
    /\ mux.handler success = HGetCheckoutSuccess.
Proof.
  destruct (checkout_callbacks_are_served rejecting "/login" prefixedHandler
              (mounted prefixedHandler) alice (sampleRequest alice smallBody None) []
              eq_refl eq_refl eq_refl)
    as (successPath & cancelPath & success & cancel
        & Hurl & _ & Hmatch & _ & Hhandler & _).
  exists successPath, success. auto.
Defined.

Lemma PostWebhook_verified_outcome_run :
  outcome (PostWebhook customerless rootHandler (sampleRequest alice smallBody None)) []
  = Panicked nilDereference
  /\ http.Status
       (w (serve (PostWebhook customerless rootHandler
                    (sampleRequest alice smallBody None)) []))
     = None.
Proof.
  refine (proj2 (PostWebhook_verified_outcome customerless rootHandler
                   (sampleRequest alice smallBody None) []
                   smallBody "t=1,v1=5257a869" "whsec_1" webhookOptions
                   (sampleEvent "customer.subscription.updated") _ _) _).
  - simpl. left. reflexivity.
  - reflexivity.
  - right. left. reflexivity.
Defined.
